(** * Risk-Analysis: the rule engine of [generator/generator.py]

    A shallow embedding of the scoring rules ([THRESHOLDS],
    [wearable_risk_score], [map_total_to_label], [rule_label_row]) and the
    properties the specification states about them.

    Numbers.  The engine only compares readings with constants and adds
    small integers.  [PyNum q] is a number as a row of the data frame holds
    it, a finite float or a NumPy integer scalar, modelled by the rational
    it denotes: an integer by itself, a float by the decimal Python writes
    for it (so the literal 37.8 is 378/10).  That reading of floats is
    strictly increasing, hence every comparison of the source has the same
    outcome on the rationals.  [PyInt z] is a Python int of any size: it
    compares like the number [z], but [np.isnan] takes it only when it fits
    a 64-bit integer, signed or unsigned, and raises [TypeError] otherwise.
    Next to the numbers stand the two values the source tests for
    explicitly, [None] and NaN: an order comparison with NaN is false, as
    in Python; an order comparison with [None], and [np.isnan(None)], raise
    [TypeError].

    [rule_label_row] is one function in the source; here each of its
    commented blocks is a definition of its own, [rule_score] adds them up
    in the order of the source, and [rule_label_row] looks the total up. *)

From Stdlib Require Import ZArith QArith Lqa Lia Bool List String.
From Stdlib Require Import Permutation.
Import ListNotations.

Local Open Scope Z_scope.

(** ** Python values and exceptions *)

Inductive pyval : Type :=
| PyNone
| PyNaN
| PyNum (q : Q)
| PyInt (z : Z).

Inductive result (A : Type) : Type :=
| Ok (a : A)
| TypeError.

Arguments Ok {A} a.
Arguments TypeError {A}.

Definition bind {A B : Type} (m : result A) (k : A -> result B) : result B :=
  match m with
  | Ok a => k a
  | TypeError => TypeError
  end.

Notation "x <- m ;; k" := (bind m (fun x => k))
  (at level 61, m at next level, right associativity).

(** [if c: t else: e] where evaluating the condition may raise. *)
Definition ifM {A : Type} (c : result bool) (t e : result A) : result A :=
  b <- c ;; if b then t else e.

(** [a and b], [a or b]: the right operand is evaluated only when needed. *)
Definition andM (a b : result bool) : result bool :=
  x <- a ;; if x then b else Ok false.

Definition orM (a b : result bool) : result bool :=
  x <- a ;; if x then Ok true else b.

Definition Qltb (x y : Q) : bool := negb (Qle_bool y x).

(** The Python ints NumPy converts to a 64-bit integer: from -2^63 up to
    2^64 - 1. *)
Definition in_np_range (z : Z) : bool :=
  (- 2 ^ 63 <=? z) && (z <? 2 ^ 64).

Arguments in_np_range : simpl never.

(** [np.isnan(v)] *)
Definition np_isnan (v : pyval) : result bool :=
  match v with
  | PyNone => TypeError
  | PyNaN => Ok true
  | PyNum _ => Ok false
  | PyInt z => if in_np_range z then Ok false else TypeError
  end.

(** The number a value stands for, when it is one. *)
Definition number (v : pyval) : option Q :=
  match v with
  | PyNum x => Some x
  | PyInt z => Some (inject_Z z)
  | PyNone | PyNaN => None
  end.

(** [v >= c], [v > c], [v <= c], [v < c] against a numeric constant. *)
Definition py_cmp (op : Q -> Q -> bool) (v : pyval) (c : Q) : result bool :=
  match v with
  | PyNone => TypeError
  | PyNaN => Ok false
  | PyNum x => Ok (op x c)
  | PyInt z => Ok (op (inject_Z z) c)
  end.

Definition py_ge : pyval -> Q -> result bool := py_cmp (fun x c => Qle_bool c x).
Definition py_gt : pyval -> Q -> result bool := py_cmp (fun x c => Qltb c x).
Definition py_le : pyval -> Q -> result bool := py_cmp (fun x c => Qle_bool x c).
Definition py_lt : pyval -> Q -> result bool := py_cmp (fun x c => Qltb x c).

(** [v is not None and not np.isnan(v)]: the reading, when there is one.
    [np.isnan] is called on every value but [None], and may raise. *)
Definition present (v : pyval) : result (option Q) :=
  match v with
  | PyNone => Ok None
  | _ => nan <- np_isnan v ;; Ok (if nan then None else number v)
  end.

(** ** THRESHOLDS *)

Record hr_cfg := {
  hr_low_upper : Q; hr_mod_upper : Q; hr_high_upper : Q;
  hr_low_lower : Q; hr_mod_lower : Q; hr_high_lower : Q }.

Record spo2_cfg := { spo2_low : Q; spo2_mod : Q; spo2_high : Q }.

Record skin_temp_cfg := {
  fever_low : Q; fever_high : Q; hypo_low : Q; hypo_high : Q }.

Record bp_cfg := {
  high1 : Q; high2 : Q; high3 : Q; low1 : Q; low2 : Q; low3 : Q }.

Record steps_cfg := { very_low : Z; steps_low : Z; very_high : Z }.

Record altitude_spo2_cfg := {
  alt_high1 : Q; alt_high2 : Q; spo2_soft : Q; spo2_hard : Q; spo2_crit : Q }.

Definition band : Type := (Z * Z * string)%type.

Record thresholds := {
  cfg_hr : hr_cfg;
  cfg_spo2 : spo2_cfg;
  cfg_skin_temp : skin_temp_cfg;
  cfg_bp_sys : bp_cfg;
  cfg_bp_dia : bp_cfg;
  cfg_steps : steps_cfg;
  cfg_altitude_spo2 : altitude_spo2_cfg;
  cfg_label_bands : list band }.

Definition THRESHOLDS : thresholds := {|
  cfg_hr := {| hr_low_upper := 110; hr_mod_upper := 130; hr_high_upper := 140;
               hr_low_lower := 60; hr_mod_lower := 50; hr_high_lower := 45 |};
  cfg_spo2 := {| spo2_low := 95; spo2_mod := 92; spo2_high := 88 |};
  cfg_skin_temp := {| fever_low := 37.8; fever_high := 38.5;
                      hypo_low := 35.5; hypo_high := 35.0 |};
  cfg_bp_sys := {| high1 := 140; high2 := 160; high3 := 180;
                   low1 := 90; low2 := 80; low3 := 70 |};
  cfg_bp_dia := {| high1 := 90; high2 := 100; high3 := 110;
                   low1 := 60; low2 := 50; low3 := 45 |};
  cfg_steps := {| very_low := 2000; steps_low := 400; very_high := 30000 |};
  cfg_altitude_spo2 := {| alt_high1 := 2500; alt_high2 := 3000;
                          spo2_soft := 94; spo2_hard := 92; spo2_crit := 88 |};
  cfg_label_bands := [ (0, 2, "LOW"%string); (3, 6, "MODERATE"%string);
                       (7, 11, "HIGH"%string); (12, 99, "CRITICAL"%string) ]
|}.

(** ** wearable_risk_score *)

(** The three [if/elif] ladders of [wearable_risk_score], each on a reading
    that passed the [is not None and not np.isnan] guard. *)
Definition hr_tier (hr : hr_cfg) (hr_bpm : Q) : Z :=
  if Qltb (hr_high_upper hr) hr_bpm || Qltb hr_bpm (hr_high_lower hr) then 3
  else if Qltb (hr_mod_upper hr) hr_bpm || Qltb hr_bpm (hr_mod_lower hr) then 2
  else if Qltb (hr_low_upper hr) hr_bpm || Qltb hr_bpm (hr_low_lower hr) then 1
  else 0.

Definition spo2_tier (sp : spo2_cfg) (spo2_pct : Q) : Z :=
  if Qltb spo2_pct (spo2_high sp) then 3
  else if Qltb spo2_pct (spo2_mod sp) then 2
  else if Qltb spo2_pct (spo2_low sp) then 1
  else 0.

Definition skin_temp_tier (st : skin_temp_cfg) (skin_temp_c : Q) : Z :=
  if Qle_bool (fever_high st) skin_temp_c then 3
  else if Qle_bool (fever_low st) skin_temp_c then 2
  else if Qle_bool skin_temp_c (hypo_high st) then 2
  else if Qle_bool skin_temp_c (hypo_low st) then 1
  else 0.

(** One guarded block: the ladder when the reading is there, else nothing. *)
Definition guarded (tier : Q -> Z) (v : pyval) : result Z :=
  p <- present v ;;
  match p with
  | Some x => Ok (tier x)
  | None => Ok 0
  end.

Definition wearable_risk_score
    (hr_bpm spo2_pct skin_temp_c : pyval) (cfg : thresholds) : result Z :=
  let score := 0 in
  d <- guarded (hr_tier (cfg_hr cfg)) hr_bpm ;; let score := score + d in
  d <- guarded (spo2_tier (cfg_spo2 cfg)) spo2_pct ;; let score := score + d in
  d <- guarded (skin_temp_tier (cfg_skin_temp cfg)) skin_temp_c ;;
  let score := score + d in
  Ok score.

(** ** map_total_to_label *)

Fixpoint map_total_to_label (total : Z) (bands : list band) : string :=
  match bands with
  | [] => "LOW"
  | (lo, hi, lab) :: rest =>
      if (lo <=? total) && (total <=? hi) then lab
      else map_total_to_label total rest
  end.

(** ** rule_label_row *)

(** The row [r] handed to [rule_label_row], with the columns it reads.  The
    five vital signs may be missing; altitude, steps, flag and weather are
    always there.  The flag is the integer column tested with [== 1] (a
    Python [False] is 0, [True] is 1); the weather is whatever string the
    column holds. *)
Record row := {
  hr_bpm : pyval;
  spo2_pct : pyval;
  skin_temp : pyval;
  bloodpressure_systolic : pyval;
  bp_diastolic : pyval;
  altitude : Q;
  steps : Z;
  past_incident_flag : Z;
  weather_condition : string }.

(** Blood pressure penalties: [if not np.isnan(sys): ...]. *)
Definition bp_sys_score (sys : pyval) : result Z :=
  let bp := cfg_bp_sys THRESHOLDS in
  nan <- np_isnan sys ;;
  if negb nan then
    ifM (py_ge sys (high3 bp)) (Ok 3)
   (ifM (py_ge sys (high2 bp)) (Ok 2)
   (ifM (py_ge sys (high1 bp)) (Ok 1)
   (ifM (py_le sys (low3 bp)) (Ok 3)
   (ifM (py_le sys (low2 bp)) (Ok 2)
   (ifM (py_le sys (low1 bp)) (Ok 1)
   (Ok 0))))))
  else Ok 0.

Definition bp_dia_score (dia : pyval) : result Z :=
  let bp := cfg_bp_dia THRESHOLDS in
  nan <- np_isnan dia ;;
  if negb nan then
    ifM (py_ge dia (high3 bp)) (Ok 2)
   (ifM (py_ge dia (high2 bp)) (Ok 2)
   (ifM (py_ge dia (high1 bp)) (Ok 1)
   (ifM (py_le dia (low3 bp)) (Ok 2)
   (ifM (py_le dia (low2 bp)) (Ok 2)
   (ifM (py_le dia (low1 bp)) (Ok 1)
   (Ok 0))))))
  else Ok 0.

(** Altitude + SpO2 interaction. *)
Definition altitude_spo2_score (alt : Q) (spo2 : pyval) : result Z :=
  let as_ := cfg_altitude_spo2 THRESHOLDS in
  ifM (andM (Ok (Qle_bool (alt_high2 as_) alt)) (py_lt spo2 (spo2_hard as_)))
    (ifM (py_lt spo2 (spo2_crit as_)) (Ok (3 + 1)) (Ok 3))
 (ifM (andM (Ok (Qle_bool (alt_high1 as_) alt)) (py_lt spo2 (spo2_soft as_)))
    (Ok 2)
    (Ok 0)).

(** Steps (too low or extreme). *)
Definition steps_score (steps : Z) : Z :=
  let st_cfg := cfg_steps THRESHOLDS in
  if steps <=? very_low st_cfg then 2
  else if steps <=? 1000 then 1
  else if very_high st_cfg <=? steps then 1
  else 0.

(** Past incident flag escalates risk. *)
Definition past_incident_score (flag : Z) : Z :=
  if flag =? 1 then 2 else 0.

(** Weather condition influence. *)
Definition weather_score (w : string) (skin_temp hr_bpm : pyval) : result Z :=
  if String.eqb w "Storm" then Ok 2
  else if existsb (String.eqb w) ["Rain"; "Snow"; "Fog"]%string then Ok 1
  else if String.eqb w "Hot" then
    ifM (orM (py_ge skin_temp 37.8%Q) (py_gt hr_bpm 110%Q)) (Ok 1) (Ok 0)
  else Ok 0.

(** The running total [s] of [rule_label_row], just before the label is
    looked up. *)
Definition rule_score (r : row) : result Z :=
  s <- wearable_risk_score (hr_bpm r) (spo2_pct r) (skin_temp r) THRESHOLDS ;;
  d <- bp_sys_score (bloodpressure_systolic r) ;; let s := s + d in
  d <- bp_dia_score (bp_diastolic r) ;; let s := s + d in
  d <- altitude_spo2_score (altitude r) (spo2_pct r) ;; let s := s + d in
  let s := s + steps_score (steps r) in
  let s := s + past_incident_score (past_incident_flag r) in
  d <- weather_score (weather_condition r) (skin_temp r) (hr_bpm r) ;;
  let s := s + d in
  Ok s.

Definition rule_label_row (r : row) : result string :=
  s <- rule_score r ;;
  Ok (map_total_to_label s (cfg_label_bands THRESHOLDS)).

(** ** Vocabulary of the statements *)

(** The bands [rule_label_row] passes to [map_total_to_label]. *)
Definition LABEL_BANDS : list band := cfg_label_bands THRESHOLDS.

(** The weather categories of the generator. *)
Definition WEATHERS : list string :=
  ["Clear"; "Hot"; "Cold"; "Rain"; "Storm"; "Snow"; "Windy"; "Fog"]%string.

(** The activity rule as the simpler function: 2 if steps <= 2000, else 1 if
    steps >= 30000, else 0, with no branch on the literal 1000. *)
Definition steps_score_simple (steps : Z) : Z :=
  if steps <=? 2000 then 2
  else if 30000 <=? steps then 1
  else 0.

(** [np.isnan] takes the value: it is NaN, a float or NumPy scalar, or a
    Python int that fits 64 bits; not [None], not a larger Python int. *)
Definition accepted (v : pyval) : Prop :=
  match v with
  | PyNone => False
  | PyNaN | PyNum _ => True
  | PyInt z => in_np_range z = true
  end.

(** A Python int too large (or too negative) for [np.isnan]. *)
Definition out_of_range (v : pyval) : Prop :=
  exists z, v = PyInt z /\ in_np_range z = false.

(** Each vital sign of the record is a number [np.isnan] takes, or NaN. *)
Definition accepted_vitals (r : row) : Prop :=
  accepted (hr_bpm r) /\ accepted (spo2_pct r) /\ accepted (skin_temp r) /\
  accepted (bloodpressure_systolic r) /\ accepted (bp_diastolic r).

(** One of the vital signs is a Python int [np.isnan] refuses. *)
Definition some_out_of_range (r : row) : Prop :=
  out_of_range (hr_bpm r) \/ out_of_range (spo2_pct r) \/
  out_of_range (skin_temp r) \/ out_of_range (bloodpressure_systolic r) \/
  out_of_range (bp_diastolic r).

(** Every vital sign of the record is missing, as NaN. *)
Definition all_nan (r : row) : Prop :=
  hr_bpm r = PyNaN /\ spo2_pct r = PyNaN /\ skin_temp r = PyNaN /\
  bloodpressure_systolic r = PyNaN /\ bp_diastolic r = PyNaN.

(** A well-formed record: weather in the enum, steps not negative, and each
    vital sign a number [np.isnan] takes, or NaN. *)
Definition well_formed (r : row) : Prop :=
  In (weather_condition r) WEATHERS /\ 0 <= steps r /\ accepted_vitals r.

(** A row with one field replaced. *)
Definition set_weather (w : string) (r : row) : row :=
  {| hr_bpm := hr_bpm r; spo2_pct := spo2_pct r; skin_temp := skin_temp r;
     bloodpressure_systolic := bloodpressure_systolic r;
     bp_diastolic := bp_diastolic r; altitude := altitude r;
     steps := steps r; past_incident_flag := past_incident_flag r;
     weather_condition := w |}.

Definition set_spo2 (v : pyval) (r : row) : row :=
  {| hr_bpm := hr_bpm r; spo2_pct := v; skin_temp := skin_temp r;
     bloodpressure_systolic := bloodpressure_systolic r;
     bp_diastolic := bp_diastolic r; altitude := altitude r;
     steps := steps r; past_incident_flag := past_incident_flag r;
     weather_condition := weather_condition r |}.

Definition set_altitude (alt : Q) (r : row) : row :=
  {| hr_bpm := hr_bpm r; spo2_pct := spo2_pct r; skin_temp := skin_temp r;
     bloodpressure_systolic := bloodpressure_systolic r;
     bp_diastolic := bp_diastolic r; altitude := alt;
     steps := steps r; past_incident_flag := past_incident_flag r;
     weather_condition := weather_condition r |}.

Definition set_flag (flag : Z) (r : row) : row :=
  {| hr_bpm := hr_bpm r; spo2_pct := spo2_pct r; skin_temp := skin_temp r;
     bloodpressure_systolic := bloodpressure_systolic r;
     bp_diastolic := bp_diastolic r; altitude := altitude r;
     steps := steps r; past_incident_flag := flag;
     weather_condition := weather_condition r |}.

Definition set_vitals (hr sp st sys dia : pyval) (r : row) : row :=
  {| hr_bpm := hr; spo2_pct := sp; skin_temp := st;
     bloodpressure_systolic := sys; bp_diastolic := dia;
     altitude := altitude r; steps := steps r;
     past_incident_flag := past_incident_flag r;
     weather_condition := weather_condition r |}.

(** The band [(lo, hi, lab)] holds the total: [lo <= total <= hi]. *)
Definition holds (total : Z) (b : band) : Prop :=
  fst (fst b) <= total <= snd (fst b).

(** The value is a number strictly below the cutoff, or NaN: the
    comparison [v >= c] is evaluated and is false. *)
Definition not_ge (v : pyval) (c : Q) : Prop :=
  v = PyNaN \/ exists x, number v = Some x /\ (x < c)%Q.

(** The rows on which [rule_label_row] raises: a [None] is reached by
    [np.isnan] or by an order comparison that is evaluated. *)
Definition reaches_none (r : row) : Prop :=
  bloodpressure_systolic r = PyNone \/
  bp_diastolic r = PyNone \/
  ((2500 <= altitude r)%Q /\ spo2_pct r = PyNone) \/
  (weather_condition r = "Hot"%string /\
   (skin_temp r = PyNone \/
    (hr_bpm r = PyNone /\ not_ge (skin_temp r) 37.8))).

(** The rows on which [rule_label_row] raises. *)
Definition raises_on (r : row) : Prop :=
  some_out_of_range r \/ reaches_none r.

(** Every signal of the row is a reading in its normal range, and the
    context adds nothing. *)
Definition all_normal (r : row) (hr sp st sys dia : Q) : Prop :=
  (60 <= hr <= 110)%Q /\ (95 <= sp)%Q /\ (35.5 < st < 37.8)%Q /\
  (90 < sys < 140)%Q /\ (60 < dia < 90)%Q /\
  2000 < steps r < 30000 /\ past_incident_flag r <> 1 /\
  ~ In (weather_condition r) ["Storm"; "Rain"; "Snow"; "Fog"]%string.

(** The five vital signs of the row are the given readings. *)
Definition has_readings (r : row) (hr sp st sys dia : Q) : Prop :=
  hr_bpm r = PyNum hr /\ spo2_pct r = PyNum sp /\ skin_temp r = PyNum st /\
  bloodpressure_systolic r = PyNum sys /\ bp_diastolic r = PyNum dia.

(** The sum of the contributions listed, evaluated from left to right; it
    raises as soon as one of them does. *)
Fixpoint sum_of (parts : list (result Z)) : result Z :=
  match parts with
  | [] => Ok 0
  | p :: rest => a <- p ;; b <- sum_of rest ;; Ok (a + b)
  end.

(** Two runs fail together or return totals related by [R]. *)
Definition both_or_neither (R : Z -> Z -> Prop) (a b : result Z) : Prop :=
  match a, b with
  | Ok x, Ok y => R x y
  | TypeError, TypeError => True
  | _, _ => False
  end.

(** ** Sample rows *)

Definition scenario_row : row :=
  {| hr_bpm := PyNum 150; spo2_pct := PyNum 90; skin_temp := PyNum 36;
     bloodpressure_systolic := PyNum 100; bp_diastolic := PyNum 70;
     altitude := 1000%Q; steps := 5000; past_incident_flag := 0;
     weather_condition := "Clear" |}.

Definition calm_row : row :=
  {| hr_bpm := PyNum 72; spo2_pct := PyNum 98; skin_temp := PyNum 36.5;
     bloodpressure_systolic := PyNum 120; bp_diastolic := PyNum 80;
     altitude := 1000%Q; steps := 5000; past_incident_flag := 0;
     weather_condition := "Clear" |}.

Definition worst_row : row :=
  {| hr_bpm := PyNum 150; spo2_pct := PyNum 80; skin_temp := PyNum 39;
     bloodpressure_systolic := PyNum 190; bp_diastolic := PyNum 115;
     altitude := 3500%Q; steps := 100; past_incident_flag := 1;
     weather_condition := "Storm" |}.

Definition tornado_row : row :=
  {| hr_bpm := PyNum 72; spo2_pct := PyNum 98; skin_temp := PyNum 36.5;
     bloodpressure_systolic := PyNum 120; bp_diastolic := PyNum 80;
     altitude := 1000%Q; steps := 5000; past_incident_flag := 0;
     weather_condition := "Tornado" |}.

Definition no_systolic_row : row :=
  {| hr_bpm := PyNum 72; spo2_pct := PyNum 98; skin_temp := PyNum 36.5;
     bloodpressure_systolic := PyNone; bp_diastolic := PyNum 80;
     altitude := 1000%Q; steps := 5000; past_incident_flag := 0;
     weather_condition := "Clear" |}.

Definition hot_no_skin_temp_row : row :=
  {| hr_bpm := PyNum 100; spo2_pct := PyNum 98; skin_temp := PyNone;
     bloodpressure_systolic := PyNum 120; bp_diastolic := PyNum 80;
     altitude := 1000%Q; steps := 5000; past_incident_flag := 0;
     weather_condition := "Hot" |}.

Definition all_missing_hot_row : row :=
  {| hr_bpm := PyNaN; spo2_pct := PyNaN; skin_temp := PyNaN;
     bloodpressure_systolic := PyNaN; bp_diastolic := PyNaN;
     altitude := 3200%Q; steps := 5000; past_incident_flag := 1;
     weather_condition := "Hot" |}.

Definition huge_hr_nan_spo2_row : row :=
  {| hr_bpm := PyInt (2 ^ 64); spo2_pct := PyNaN; skin_temp := PyNum 36.5;
     bloodpressure_systolic := PyNum 120; bp_diastolic := PyNum 80;
     altitude := 1000%Q; steps := 5000; past_incident_flag := 0;
     weather_condition := "Clear" |}.

Definition nan_spo2_row : row :=
  {| hr_bpm := PyNum 72; spo2_pct := PyNaN; skin_temp := PyNum 36.5;
     bloodpressure_systolic := PyNum 120; bp_diastolic := PyNum 80;
     altitude := 3200%Q; steps := 5000; past_incident_flag := 0;
     weather_condition := "Clear" |}.

Definition no_diastolic_row : row :=
  {| hr_bpm := PyNum 72; spo2_pct := PyNum 98; skin_temp := PyNum 36.5;
     bloodpressure_systolic := PyNum 120; bp_diastolic := PyNone;
     altitude := 1000%Q; steps := 5000; past_incident_flag := 0;
     weather_condition := "Clear" |}.

Definition low_altitude_no_spo2_row : row :=
  {| hr_bpm := PyNone; spo2_pct := PyNone; skin_temp := PyNone;
     bloodpressure_systolic := PyNum 120; bp_diastolic := PyNaN;
     altitude := 2499%Q; steps := 5000; past_incident_flag := 0;
     weather_condition := "Rain" |}.

(** ** Reading the boolean comparisons *)

Lemma Qltb_true (x y : Q) : Qltb x y = true <-> (x < y)%Q.
Proof.
  unfold Qltb. rewrite negb_true_iff, <- not_true_iff_false, Qle_bool_iff.
  split; intro H; [apply Qnot_le_lt | apply Qlt_not_le]; exact H.
Qed.

Lemma Qltb_false (x y : Q) : Qltb x y = false <-> (y <= x)%Q.
Proof.
  unfold Qltb. rewrite negb_false_iff. apply Qle_bool_iff.
Qed.

Lemma Qle_bool_false (x y : Q) : Qle_bool x y = false <-> (y < x)%Q.
Proof.
  rewrite <- not_true_iff_false, Qle_bool_iff.
  split; intro H; [apply Qnot_le_lt | apply Qlt_not_le]; exact H.
Qed.

(** Case split on every rational comparison left in the goal, turning each
    outcome into the order fact it stands for. *)
Ltac q_split :=
  repeat match goal with
  | |- context [Qle_bool ?a ?b] =>
      let E := fresh "E" in
      destruct (Qle_bool a b) eqn:E;
      [apply Qle_bool_iff in E | apply Qle_bool_false in E]
  | |- context [Qltb ?a ?b] =>
      let E := fresh "E" in
      destruct (Qltb a b) eqn:E;
      [apply Qltb_true in E | apply Qltb_false in E]
  end.

Ltac q_done := cbn in *; first [reflexivity | discriminate | lra | lia | tauto].

(** ** Label bands *)

(** C1 (as stated, refuted): total 100 is a non-negative integer above 12,
    yet no band holds it and [map_total_to_label] answers LOW, not
    CRITICAL. *)
Lemma C1_total_100_falls_back :
  0 <= 100 /\ 12 <= 100 /\
  map_total_to_label 100 LABEL_BANDS = "LOW"%string /\
  map_total_to_label 100 LABEL_BANDS <> "CRITICAL"%string /\
  (forall lo hi lab, In (lo, hi, lab) LABEL_BANDS -> ~ (lo <= 100 <= hi)).
Proof.
  repeat split; try lia; try discriminate.
  intros lo hi lab H [H1 H2]. cbn in H.
  repeat (destruct H as [H | H]; [inversion H; subst; lia | ]).
  exact H.
Qed.

(** C1 (amended): for every non-negative total, [map_total_to_label] on the
    configured bands answers MODERATE exactly for 3..6, HIGH exactly for
    7..11, CRITICAL exactly for 12..99, and LOW exactly for 0..2 and for
    every total of 100 or more; up to 99 the answer is the label of a band
    that holds the total, from 100 on no band holds it and the fallback
    decides. *)
Theorem C1_label_bands (total : Z) (Hnonneg : 0 <= total) :
  let lab := map_total_to_label total LABEL_BANDS in
  (lab = "LOW"%string <-> total <= 2 \/ 100 <= total) /\
  (lab = "MODERATE"%string <-> 3 <= total <= 6) /\
  (lab = "HIGH"%string <-> 7 <= total <= 11) /\
  (lab = "CRITICAL"%string <-> 12 <= total <= 99) /\
  (total <= 99 ->
     exists lo hi, In (lo, hi, lab) LABEL_BANDS /\ lo <= total <= hi) /\
  (100 <= total ->
     forall lo hi l, In (lo, hi, l) LABEL_BANDS -> ~ (lo <= total <= hi)).
Proof.
  assert (Hout : 100 <= total ->
     forall lo hi l, In (lo, hi, l) LABEL_BANDS -> ~ (lo <= total <= hi)).
  { intros Hbig lo hi l Hin [Hlo Hhi]. cbn in Hin.
    repeat (destruct Hin as [Hin | Hin]; [inversion Hin; subst; lia | ]).
    exact Hin. }
  cbn.
  destruct (Z.leb_spec 0 total); [ | lia].
  destruct (Z.leb_spec total 2); cbn.
  { repeat split; intros; try discriminate; try lia; auto.
    exists 0, 2. split; [auto | lia]. }
  destruct (Z.leb_spec 3 total); [ | lia].
  destruct (Z.leb_spec total 6); cbn.
  { repeat split; intros; try discriminate; try lia; auto.
    exists 3, 6. split; [auto | lia]. }
  destruct (Z.leb_spec 7 total); [ | lia].
  destruct (Z.leb_spec total 11); cbn.
  { repeat split; intros; try discriminate; try lia; auto.
    exists 7, 11. split; [auto 6 | lia]. }
  destruct (Z.leb_spec 12 total); [ | lia].
  destruct (Z.leb_spec total 99); cbn.
  { repeat split; intros; try discriminate; try lia; auto.
    exists 12, 99. split; [auto 6 | lia]. }
  repeat split; intros; try discriminate; try lia; auto.
  match goal with Hin : _ \/ _ |- _ => exact (Hout ltac:(lia) _ _ _ Hin) end.
Qed.

Lemma C1_label_bands_witness :
  map_total_to_label 12 LABEL_BANDS = "CRITICAL"%string <-> 12 <= 12 <= 99.
Proof.
  apply (C1_label_bands 12). lia.
Defined.

(** ** Vitals sub-score *)

Lemma accepted_not_out_of_range (v : pyval) :
  accepted v -> ~ out_of_range v.
Proof.
  intros Ha (z & -> & Hz). cbn in Ha. congruence.
Qed.

Section Vitals.

Variable cfg : thresholds.

(** A block whose reading is missing, as [None] or as NaN, adds nothing. *)
Lemma guarded_missing (tier : Q -> Z) :
  guarded tier PyNone = Ok 0 /\ guarded tier PyNaN = Ok 0.
Proof. split; reflexivity. Qed.

(** On a Python int the block runs its ladder when [np.isnan] takes the
    int, and raises otherwise. *)
Lemma guarded_int (tier : Q -> Z) (z : Z) :
  guarded tier (PyInt z) =
    if in_np_range z then Ok (tier (inject_Z z)) else TypeError.
Proof.
  unfold guarded, present, np_isnan, number, bind.
  destruct (in_np_range z); reflexivity.
Qed.

(** A block raises exactly on a Python int that [np.isnan] refuses. *)
Lemma guarded_raises (tier : Q -> Z) (v : pyval) :
  guarded tier v = TypeError <-> out_of_range v.
Proof.
  unfold out_of_range.
  destruct v as [ | | q | z];
    try (cbn; split; [discriminate | intros (z' & H & _); discriminate]).
  rewrite guarded_int. destruct (in_np_range z) eqn:E.
  - split; [discriminate | intros (z' & H & Hz)].
    inversion H; subst. congruence.
  - split; [intros _; exists z; auto | reflexivity].
Qed.

Lemma guarded_range (tier : Q -> Z) (hi : Z) (v : pyval) (d : Z) :
  0 <= hi -> (forall q, 0 <= tier q <= hi) ->
  guarded tier v = Ok d -> 0 <= d <= hi.
Proof.
  intros Hhi Ht. destruct v as [ | | q | z];
    [cbn | cbn | cbn | rewrite guarded_int; destruct (in_np_range z)];
    intros H; inversion H; subst; auto; lia.
Qed.

(** The three blocks of [wearable_risk_score] are independent: the score
    is the sum of the scores with one vital present at a time, and the
    call raises as soon as one of those does. *)
Lemma wearable_risk_score_additive (hr sp st : pyval) :
  wearable_risk_score hr sp st cfg =
    (a <- wearable_risk_score hr PyNone PyNone cfg ;;
     b <- wearable_risk_score PyNone sp PyNone cfg ;;
     c <- wearable_risk_score PyNone PyNone st cfg ;;
     Ok (a + b + c)).
Proof.
  unfold wearable_risk_score.
  rewrite !(proj1 (guarded_missing _)).
  destruct (guarded (hr_tier (cfg_hr cfg)) hr) as [a | ]; [ | reflexivity].
  destruct (guarded (spo2_tier (cfg_spo2 cfg)) sp) as [b | ]; [ | reflexivity].
  destruct (guarded (skin_temp_tier (cfg_skin_temp cfg)) st) as [c | ];
    [ | reflexivity].
  cbn. f_equal. lia.
Qed.

(** Whatever the cutoffs, a ladder awards one of 0, 1, 2, 3. *)
Lemma hr_tier_range (q : Q) : 0 <= hr_tier (cfg_hr cfg) q <= 3.
Proof.
  unfold hr_tier.
  repeat match goal with |- context [if ?b then _ else _] => destruct b end;
    lia.
Qed.

Lemma spo2_tier_range (q : Q) : 0 <= spo2_tier (cfg_spo2 cfg) q <= 3.
Proof.
  unfold spo2_tier.
  repeat match goal with |- context [if ?b then _ else _] => destruct b end;
    lia.
Qed.

Lemma skin_temp_tier_range (q : Q) :
  0 <= skin_temp_tier (cfg_skin_temp cfg) q <= 3.
Proof.
  unfold skin_temp_tier.
  repeat match goal with |- context [if ?b then _ else _] => destruct b end;
    lia.
Qed.

Lemma wearable_risk_score_range (hr sp st : pyval) (s : Z) :
  wearable_risk_score hr sp st cfg = Ok s -> 0 <= s <= 9.
Proof.
  unfold wearable_risk_score.
  destruct (guarded (hr_tier (cfg_hr cfg)) hr) as [a | ] eqn:Ea;
    [ | discriminate].
  destruct (guarded (spo2_tier (cfg_spo2 cfg)) sp) as [b | ] eqn:Eb;
    [ | discriminate].
  destruct (guarded (skin_temp_tier (cfg_skin_temp cfg)) st) as [c | ] eqn:Ec;
    [ | discriminate].
  apply (guarded_range _ 3) in Ea; [ | lia | apply hr_tier_range].
  apply (guarded_range _ 3) in Eb; [ | lia | apply spo2_tier_range].
  apply (guarded_range _ 3) in Ec; [ | lia | apply skin_temp_tier_range].
  cbn. intros H. inversion H. lia.
Qed.

(** The call raises exactly when one of its arguments is a Python int that
    [np.isnan] refuses. *)
Lemma wearable_risk_score_raises (hr sp st : pyval) :
  wearable_risk_score hr sp st cfg = TypeError <->
  out_of_range hr \/ out_of_range sp \/ out_of_range st.
Proof.
  unfold wearable_risk_score.
  pose proof (guarded_raises (hr_tier (cfg_hr cfg)) hr) as Hh.
  pose proof (guarded_raises (spo2_tier (cfg_spo2 cfg)) sp) as Hs.
  pose proof (guarded_raises (skin_temp_tier (cfg_skin_temp cfg)) st) as Ht.
  destruct (guarded (hr_tier (cfg_hr cfg)) hr) as [a | ]; [ | cbn; tauto].
  destruct (guarded (spo2_tier (cfg_spo2 cfg)) sp) as [b | ]; [ | cbn; tauto].
  destruct (guarded (skin_temp_tier (cfg_skin_temp cfg)) st) as [c | ];
    [ | cbn; tauto].
  cbn. split; [discriminate | ].
  intros [H | [H | H]];
    [apply Hh in H | apply Hs in H | apply Ht in H]; discriminate.
Qed.

Lemma wearable_risk_score_returns (hr sp st : pyval) :
  ~ out_of_range hr -> ~ out_of_range sp -> ~ out_of_range st ->
  exists s, wearable_risk_score hr sp st cfg = Ok s.
Proof.
  intros Hh Hs Ht.
  destruct (wearable_risk_score hr sp st cfg) as [s | ] eqn:E;
    [exists s; reflexivity | ].
  apply wearable_risk_score_raises in E. tauto.
Qed.

(** With one vital given as a float or NumPy scalar, the score is that
    vital's ladder. *)
Lemma wearable_risk_score_one_vital (q : Q) :
  wearable_risk_score (PyNum q) PyNone PyNone cfg
    = Ok (hr_tier (cfg_hr cfg) q) /\
  wearable_risk_score PyNone (PyNum q) PyNone cfg
    = Ok (spo2_tier (cfg_spo2 cfg) q) /\
  wearable_risk_score PyNone PyNone (PyNum q) cfg
    = Ok (skin_temp_tier (cfg_skin_temp cfg) q).
Proof.
  unfold wearable_risk_score, guarded. cbn [present np_isnan number bind].
  cbv zeta. repeat split; f_equal; lia.
Qed.

End Vitals.

(** C2 (as stated, refuted): with only spo2_pct = 88.0 present the vitals
    sub-score is 2, not 3, since 88.0 < 88 is false. *)
Lemma C2_spo2_88_scores_2 :
  wearable_risk_score PyNone (PyNum 88.0) PyNone THRESHOLDS = Ok 2 /\
  wearable_risk_score PyNone (PyNum 88.0) PyNone THRESHOLDS <> Ok 3.
Proof. split; [reflexivity | discriminate]. Qed.

(** C2 (amended): with only the named vital present, the vitals sub-score
    is 2 for spo2_pct = 88.0 and 2 for spo2_pct = 88.1, and 3 exactly for
    the readings strictly below 88 (87.9 for one); it is 2 for
    hr_bpm = 140.0 and 3 for hr_bpm = 140.1, and 3 exactly for the heart
    rates strictly above 140 or strictly below 45.  The same holds whether
    the other vitals are missing as [None] or as NaN. *)
Theorem C2_boundary_tiers :
  wearable_risk_score PyNone (PyNum 88.0) PyNone THRESHOLDS = Ok 2 /\
  wearable_risk_score PyNone (PyNum 88.1) PyNone THRESHOLDS = Ok 2 /\
  wearable_risk_score PyNone (PyNum 87.9) PyNone THRESHOLDS = Ok 3 /\
  wearable_risk_score (PyNum 140.0) PyNone PyNone THRESHOLDS = Ok 2 /\
  wearable_risk_score (PyNum 140.1) PyNone PyNone THRESHOLDS = Ok 3 /\
  (forall q, wearable_risk_score PyNone (PyNum q) PyNone THRESHOLDS = Ok 3
             <-> (q < 88)%Q) /\
  (forall q, wearable_risk_score (PyNum q) PyNone PyNone THRESHOLDS = Ok 3
             <-> (140 < q \/ q < 45)%Q) /\
  (forall q, wearable_risk_score PyNaN (PyNum q) PyNaN THRESHOLDS =
             wearable_risk_score PyNone (PyNum q) PyNone THRESHOLDS) /\
  (forall q, wearable_risk_score (PyNum q) PyNaN PyNaN THRESHOLDS =
             wearable_risk_score (PyNum q) PyNone PyNone THRESHOLDS).
Proof.
  repeat split; try reflexivity;
    unfold wearable_risk_score, guarded, spo2_tier, hr_tier; cbn;
    q_split; cbn; intros; first [reflexivity | discriminate | lra].
Qed.

(** ** Weather *)

Lemma weather_score_outside_enum (w : string) (st hr : pyval) :
  ~ In w WEATHERS -> weather_score w st hr = Ok 0.
Proof.
  intros Hw. unfold weather_score, WEATHERS in *. cbn in *.
  repeat match goal with
  | |- context [String.eqb w ?s] =>
      destruct (String.eqb_spec w s) as [-> | _]; [exfalso; tauto | ]
  end.
  reflexivity.
Qed.

(** C3 (as stated, refuted): a record whose weather_condition is "Tornado",
    outside the enum, is scored to the end and labelled LOW; nothing is
    raised. *)
Lemma C3_unknown_weather_is_scored :
  ~ In (weather_condition tornado_row) WEATHERS /\
  rule_label_row tornado_row = Ok "LOW"%string /\
  rule_label_row tornado_row <> TypeError.
Proof.
  split; [ | split; [reflexivity | discriminate]].
  cbn. intros H.
  repeat (destruct H as [H | H]; [discriminate | ]). exact H.
Qed.

(** C3 (amended): for every record whose weather_condition is not one of
    the eight enum values, the engine does no validation: the weather signal
    contributes zero and the record is scored and labelled exactly as the
    same record with weather Clear. *)
Theorem C3_unknown_weather_scores_as_clear (r : row)
    (Hw : ~ In (weather_condition r) WEATHERS) :
  weather_score (weather_condition r) (skin_temp r) (hr_bpm r) = Ok 0 /\
  rule_score r = rule_score (set_weather "Clear" r) /\
  rule_label_row r = rule_label_row (set_weather "Clear" r).
Proof.
  pose proof (weather_score_outside_enum _ (skin_temp r) (hr_bpm r) Hw) as H0.
  assert (Hs : rule_score r = rule_score (set_weather "Clear" r)).
  { unfold rule_score. cbn. rewrite H0. reflexivity. }
  split; [exact H0 | split; [exact Hs | ]].
  unfold rule_label_row. rewrite Hs. reflexivity.
Qed.

Lemma C3_unknown_weather_witness :
  rule_label_row tornado_row = rule_label_row (set_weather "Clear" tornado_row).
Proof.
  apply (C3_unknown_weather_scores_as_clear tornado_row).
  cbn. intros H.
  repeat (destruct H as [H | H]; [discriminate | ]). exact H.
Defined.

(** ** Each block of [rule_label_row]: when it returns, and what *)

(** A Python int that [np.isnan] takes goes through the pressure blocks like
    the same number from the data frame; one it refuses raises. *)
Lemma bp_sys_score_int (z : Z) :
  bp_sys_score (PyInt z) =
    if in_np_range z then bp_sys_score (PyNum (inject_Z z)) else TypeError.
Proof.
  unfold bp_sys_score, np_isnan, bind. destruct (in_np_range z); reflexivity.
Qed.

Lemma bp_dia_score_int (z : Z) :
  bp_dia_score (PyInt z) =
    if in_np_range z then bp_dia_score (PyNum (inject_Z z)) else TypeError.
Proof.
  unfold bp_dia_score, np_isnan, bind. destruct (in_np_range z); reflexivity.
Qed.

Lemma altitude_spo2_score_int (alt : Q) (z : Z) :
  altitude_spo2_score alt (PyInt z)
    = altitude_spo2_score alt (PyNum (inject_Z z)).
Proof. reflexivity. Qed.

Lemma bp_sys_score_returns (v : pyval) :
  accepted v -> exists d, bp_sys_score v = Ok d.
Proof.
  destruct v as [ | | q | z]; cbn [accepted]; intros Hv;
    [contradiction | eexists; reflexivity | | rewrite bp_sys_score_int, Hv];
    unfold bp_sys_score, ifM; cbn; q_split; eexists; reflexivity.
Qed.

Lemma bp_sys_score_range (v : pyval) (d : Z) :
  bp_sys_score v = Ok d -> 0 <= d <= 3.
Proof.
  destruct v as [ | | q | z];
    [ | | | rewrite bp_sys_score_int; destruct (in_np_range z);
            [ | discriminate] ];
    unfold bp_sys_score, ifM; cbn;
    q_split; cbn; intros H; inversion H; lia.
Qed.

Lemma bp_dia_score_returns (v : pyval) :
  accepted v -> exists d, bp_dia_score v = Ok d.
Proof.
  destruct v as [ | | q | z]; cbn [accepted]; intros Hv;
    [contradiction | eexists; reflexivity | | rewrite bp_dia_score_int, Hv];
    unfold bp_dia_score, ifM; cbn; q_split; eexists; reflexivity.
Qed.

Lemma bp_dia_score_range (v : pyval) (d : Z) :
  bp_dia_score v = Ok d -> 0 <= d <= 2.
Proof.
  destruct v as [ | | q | z];
    [ | | | rewrite bp_dia_score_int; destruct (in_np_range z);
            [ | discriminate] ];
    unfold bp_dia_score, ifM; cbn;
    q_split; cbn; intros H; inversion H; lia.
Qed.

Lemma altitude_spo2_score_returns (alt : Q) (v : pyval) :
  v <> PyNone -> exists d, altitude_spo2_score alt v = Ok d.
Proof.
  destruct v as [ | | q | z]; intros Hv; [congruence | | | ];
    unfold altitude_spo2_score, ifM, andM; cbn;
    q_split; eexists; reflexivity.
Qed.

Lemma altitude_spo2_score_range (alt : Q) (v : pyval) (d : Z) :
  altitude_spo2_score alt v = Ok d -> 0 <= d <= 4.
Proof.
  destruct v as [ | | q | z]; unfold altitude_spo2_score, ifM, andM; cbn;
    q_split; cbn; intros H; inversion H; lia.
Qed.

Lemma weather_score_returns (w : string) (st hr : pyval) :
  st <> PyNone -> hr <> PyNone -> exists d, weather_score w st hr = Ok d.
Proof.
  intros Hst Hhr. unfold weather_score.
  destruct (String.eqb w "Storm"); [eexists; reflexivity | ].
  destruct (existsb _ _); [eexists; reflexivity | ].
  destruct (String.eqb w "Hot"); [ | eexists; reflexivity].
  destruct st as [ | | x | x]; [congruence | | | ];
    (destruct hr as [ | | y | y]; [congruence | | | ]);
    unfold ifM, orM; cbn; q_split; eexists; reflexivity.
Qed.

Lemma weather_score_range (w : string) (st hr : pyval) (d : Z) :
  weather_score w st hr = Ok d -> 0 <= d <= 2.
Proof.
  unfold weather_score.
  destruct (String.eqb w "Storm"); [intros H; inversion H; lia | ].
  destruct (existsb _ _); [intros H; inversion H; lia | ].
  destruct (String.eqb w "Hot"); [ | intros H; inversion H; lia].
  destruct st as [ | | x | x]; destruct hr as [ | | y | y];
    unfold ifM, orM; cbn; q_split; cbn; intros H; inversion H; lia.
Qed.

Lemma steps_score_range (n : Z) : 0 <= steps_score n <= 2.
Proof.
  unfold steps_score. cbn.
  destruct (n <=? 2000); [lia | ].
  destruct (n <=? 1000); [lia | ].
  destruct (30000 <=? n); lia.
Qed.

Lemma past_incident_score_range (flag : Z) : 0 <= past_incident_score flag <= 2.
Proof. unfold past_incident_score. destruct (flag =? 1); lia. Qed.

Lemma accepted_not_none (v : pyval) : accepted v -> v <> PyNone.
Proof. intros Ha ->. exact Ha. Qed.

Lemma rule_score_returns (r : row) :
  accepted_vitals r -> exists s, rule_score r = Ok s.
Proof.
  intros (Hhr & Hsp & Hst & Hsys & Hdia). unfold rule_score.
  destruct (wearable_risk_score_returns THRESHOLDS
              (hr_bpm r) (spo2_pct r) (skin_temp r)) as [d0 ->];
    try (apply accepted_not_out_of_range; assumption).
  destruct (bp_sys_score_returns _ Hsys) as [d1 ->].
  destruct (bp_dia_score_returns _ Hdia) as [d2 ->].
  destruct (altitude_spo2_score_returns (altitude r) (spo2_pct r)) as [d3 ->];
    [apply accepted_not_none; assumption | ].
  destruct (weather_score_returns (weather_condition r)
              (skin_temp r) (hr_bpm r)) as [d4 ->];
    try (apply accepted_not_none; assumption).
  cbn. eexists; reflexivity.
Qed.

Lemma rule_score_range (r : row) (s : Z) :
  rule_score r = Ok s -> 0 <= s <= 24.
Proof.
  unfold rule_score.
  destruct (wearable_risk_score _ _ _ _) as [d0 | ] eqn:E0; [ | discriminate].
  destruct (bp_sys_score _) as [d1 | ] eqn:E1; [ | discriminate].
  destruct (bp_dia_score _) as [d2 | ] eqn:E2; [ | discriminate].
  destruct (altitude_spo2_score _ _) as [d3 | ] eqn:E3; [ | discriminate].
  destruct (weather_score _ _ _) as [d4 | ] eqn:E4; [ | discriminate].
  cbn. intros H; inversion H; subst s; clear H.
  apply wearable_risk_score_range in E0.
  apply bp_sys_score_range in E1. apply bp_dia_score_range in E2.
  apply altitude_spo2_score_range in E3. apply weather_score_range in E4.
  pose proof (steps_score_range (steps r)).
  pose proof (past_incident_score_range (past_incident_flag r)).
  lia.
Qed.

(** ** Missing vitals *)

(** The total is the sum of what each signal contributes on its own: the
    three ladders of the vitals sub-score, the two pressures, the
    altitude/oxygen interaction, steps, flag and weather. *)
Lemma rule_score_parts (r : row) :
  rule_score r =
    sum_of [ wearable_risk_score (hr_bpm r) PyNone PyNone THRESHOLDS;
             wearable_risk_score PyNone (spo2_pct r) PyNone THRESHOLDS;
             wearable_risk_score PyNone PyNone (skin_temp r) THRESHOLDS;
             bp_sys_score (bloodpressure_systolic r);
             bp_dia_score (bp_diastolic r);
             altitude_spo2_score (altitude r) (spo2_pct r);
             Ok (steps_score (steps r));
             Ok (past_incident_score (past_incident_flag r));
             weather_score (weather_condition r) (skin_temp r) (hr_bpm r) ].
Proof.
  unfold rule_score. rewrite wearable_risk_score_additive. cbn [sum_of].
  destruct (wearable_risk_score (hr_bpm r) _ _ _) as [a | ]; [ | reflexivity].
  destruct (wearable_risk_score _ (spo2_pct r) _ _) as [b | ]; [ | reflexivity].
  destruct (wearable_risk_score _ _ (skin_temp r) _) as [c | ]; [ | reflexivity].
  destruct (bp_sys_score _) as [d1 | ]; [ | reflexivity].
  destruct (bp_dia_score _) as [d2 | ]; [ | reflexivity].
  destruct (altitude_spo2_score _ _) as [d3 | ]; [ | reflexivity].
  destruct (weather_score _ _ _) as [d4 | ]; [ | reflexivity].
  cbn. f_equal. lia.
Qed.

(** Splitting a sum of contributions in two. *)
Lemma sum_of_app (l1 l2 : list (result Z)) :
  sum_of (l1 ++ l2) = (a <- sum_of l1 ;; b <- sum_of l2 ;; Ok (a + b)).
Proof.
  induction l1 as [ | p l1 IH]; cbn [app sum_of].
  - cbn. destruct (sum_of l2) as [b | ]; reflexivity.
  - rewrite IH. destruct p as [x | ]; [ | reflexivity]. cbn.
    destruct (sum_of l1) as [a | ]; [ | reflexivity]. cbn.
    destruct (sum_of l2) as [b | ]; [ | reflexivity]. cbn.
    f_equal. lia.
Qed.

(** A contribution of zero can be left out of the sum, wherever it stands. *)
Lemma sum_of_drop_zero (l1 l2 : list (result Z)) :
  sum_of (l1 ++ Ok 0 :: l2) = sum_of (l1 ++ l2).
Proof.
  rewrite !sum_of_app. cbn [sum_of].
  destruct (sum_of l1) as [a | ]; [ | reflexivity]. cbn.
  destruct (sum_of l2) as [b | ]; reflexivity.
Qed.

Lemma altitude_spo2_score_nan (alt : Q) :
  altitude_spo2_score alt PyNaN = Ok 0.
Proof.
  unfold altitude_spo2_score, ifM, andM. cbn. q_split; reflexivity.
Qed.

(** C4 (as stated, refuted): a vital that is absent as [None] makes
    [rule_label_row] raise: [np.isnan(None)] for a systolic pressure, and
    under weather Hot the comparison [None >= 37.8] for a skin
    temperature.  A record with a NaN spo2_pct also raises when another
    vital is a Python int that [np.isnan] refuses, 2^64 for one. *)
Lemma C4_none_vital_raises :
  rule_label_row no_systolic_row = TypeError /\
  weather_score "Hot" (skin_temp hot_no_skin_temp_row)
                      (hr_bpm hot_no_skin_temp_row) = TypeError /\
  rule_label_row hot_no_skin_temp_row = TypeError /\
  spo2_pct huge_hr_nan_spo2_row = PyNaN /\
  rule_label_row huge_hr_nan_spo2_row = TypeError.
Proof. repeat split; reflexivity. Qed.

(** C4 (amended): for every record whose vitals are each NaN or a number
    [np.isnan] takes (none is [None], none a Python int beyond 64 bits),
    scoring completes with a label, and a vital that is NaN contributes
    exactly zero to the total: the total is then the sum of what the other
    signals contribute, with no term for the missing one, neither from its
    own ladder or block nor, for spo2_pct, from the altitude/oxygen
    interaction.  Under weather Hot a NaN skin_temp or hr_bpm makes its
    comparison false, the other comparison alone deciding the +1.  With all
    five vitals NaN the total is the steps, past-incident and weather
    contributions only. *)
Theorem C4_nan_vital_contributes_zero (r : row) (Hr : accepted_vitals r) :
  let hr := wearable_risk_score (hr_bpm r) PyNone PyNone THRESHOLDS in
  let sp := wearable_risk_score PyNone (spo2_pct r) PyNone THRESHOLDS in
  let st := wearable_risk_score PyNone PyNone (skin_temp r) THRESHOLDS in
  let sys := bp_sys_score (bloodpressure_systolic r) in
  let dia := bp_dia_score (bp_diastolic r) in
  let alt := altitude_spo2_score (altitude r) (spo2_pct r) in
  let stp := Ok (steps_score (steps r)) in
  let inc := Ok (past_incident_score (past_incident_flag r)) in
  let wth := weather_score (weather_condition r) (skin_temp r) (hr_bpm r) in
  (exists s, rule_score r = Ok s /\
             rule_label_row r = Ok (map_total_to_label s LABEL_BANDS)) /\
  (hr_bpm r = PyNaN ->
     rule_score r = sum_of [sp; st; sys; dia; alt; stp; inc; wth] /\
     py_gt (hr_bpm r) 110 = Ok false /\
     weather_score "Hot" (skin_temp r) (hr_bpm r) =
       ifM (py_ge (skin_temp r) 37.8) (Ok 1) (Ok 0)) /\
  (spo2_pct r = PyNaN ->
     rule_score r = sum_of [hr; st; sys; dia; stp; inc; wth]) /\
  (skin_temp r = PyNaN ->
     rule_score r = sum_of [hr; sp; sys; dia; alt; stp; inc; wth] /\
     py_ge (skin_temp r) 37.8 = Ok false /\
     weather_score "Hot" (skin_temp r) (hr_bpm r) =
       ifM (py_gt (hr_bpm r) 110) (Ok 1) (Ok 0)) /\
  (bloodpressure_systolic r = PyNaN ->
     rule_score r = sum_of [hr; sp; st; dia; alt; stp; inc; wth]) /\
  (bp_diastolic r = PyNaN ->
     rule_score r = sum_of [hr; sp; st; sys; alt; stp; inc; wth]) /\
  (all_nan r ->
     exists w, weather_score (weather_condition r) PyNaN PyNaN = Ok w /\
       (weather_condition r = "Hot"%string -> w = 0) /\
       rule_score r = sum_of [stp; inc; Ok w]).
Proof.
  cbv zeta. rewrite (rule_score_parts r).
  destruct Hr as (Ahr & Asp & Ast & Asys & Adia).
  split; [ | split; [ | split; [ | split; [ | split; [ | split]]]]].
  - rewrite <- (rule_score_parts r).
    destruct (rule_score_returns r) as [s Hs]; [repeat split; assumption | ].
    exists s. split; [exact Hs | ].
    unfold rule_label_row. rewrite Hs. reflexivity.
  - intros H. rewrite H. split; [ | split].
    + exact (sum_of_drop_zero [] _).
    + reflexivity.
    + apply accepted_not_none in Ast.
      destruct (skin_temp r) as [ | | x | x]; [congruence | reflexivity | | ];
        unfold weather_score, ifM, orM; cbn;
        destruct (Qle_bool _ _); reflexivity.
  - intros H. rewrite H, altitude_spo2_score_nan.
    change (wearable_risk_score PyNone PyNaN PyNone THRESHOLDS)
      with (@Ok Z 0).
    etransitivity; [exact (sum_of_drop_zero [_] _) | ].
    exact (sum_of_drop_zero [_; _; _; _] _).
  - intros H. rewrite H. split; [ | split].
    + exact (sum_of_drop_zero [_; _] _).
    + reflexivity.
    + reflexivity.
  - intros H. rewrite H. exact (sum_of_drop_zero [_; _; _] _).
  - intros H. rewrite H. exact (sum_of_drop_zero [_; _; _; _] _).
  - intros (Hhr & Hsp & Hst & Hsys & Hdia).
    rewrite Hhr, Hsp, Hst, Hsys, Hdia, altitude_spo2_score_nan.
    destruct (weather_score_returns (weather_condition r) PyNaN PyNaN)
      as [w Hw]; try discriminate.
    exists w. split; [exact Hw | split].
    + intros Hhot. rewrite Hhot in Hw. cbn in Hw. congruence.
    + rewrite Hw. cbn. first [reflexivity | f_equal; lia].
Qed.

Lemma C4_nan_vital_witness :
  rule_score nan_spo2_row =
    sum_of [ wearable_risk_score (hr_bpm nan_spo2_row) PyNone PyNone THRESHOLDS;
             wearable_risk_score PyNone PyNone (skin_temp nan_spo2_row)
               THRESHOLDS;
             bp_sys_score (bloodpressure_systolic nan_spo2_row);
             bp_dia_score (bp_diastolic nan_spo2_row);
             Ok (steps_score (steps nan_spo2_row));
             Ok (past_incident_score (past_incident_flag nan_spo2_row));
             weather_score (weather_condition nan_spo2_row)
               (skin_temp nan_spo2_row) (hr_bpm nan_spo2_row) ].
Proof.
  destruct (C4_nan_vital_contributes_zero nan_spo2_row)
    as (_ & _ & H & _).
  - repeat split.
  - apply H. reflexivity.
Defined.

(** A NaN spo2_pct beside vitals that were read, at an altitude where a
    low reading would cost 7: nothing is added. *)
Example nan_spo2_row_scores_0 :
  rule_score nan_spo2_row = Ok 0 /\
  rule_score (set_spo2 (PyNum 85) nan_spo2_row) = Ok 7.
Proof. split; reflexivity. Qed.

Example all_missing_hot_row_scores_2 :
  rule_score all_missing_hot_row = Ok 2 /\
  rule_label_row all_missing_hot_row = Ok "LOW"%string.
Proof. split; reflexivity. Qed.

(** ** Altitude and oxygen *)

(** The interaction on a present spo2 reading, branch by branch. *)
Lemma altitude_spo2_score_cases (alt q : Q) :
  altitude_spo2_score alt (PyNum q) =
    Ok (if Qle_bool 3000 alt && Qltb q 92
        then (if Qltb q 88 then 4 else 3)
        else if Qle_bool 2500 alt && Qltb q 94 then 2 else 0).
Proof.
  unfold altitude_spo2_score, ifM, andM. cbn.
  destruct (Qle_bool 3000 alt); destruct (Qle_bool 2500 alt); cbn;
    destruct (Qltb q 92); destruct (Qltb q 94); destruct (Qltb q 88);
    reflexivity.
Qed.

(** C5: at altitude 3200 with spo2_pct 85 the interaction contributes 4
    (3 for the hard threshold and 1 for the critical one), the spo2 ladder
    of the vitals sub-score contributes 3, and the total of any such record
    is 7 more than with the spo2 reading missing.  The two interaction
    branches exclude each other (the soft branch's 2 is never added on top
    of the hard branch, though its condition holds too), and the
    interaction is added to the spo2 ladder's penalty. *)
Theorem C5_altitude_oxygen_stacking :
  altitude_spo2_score 3200 (PyNum 85) = Ok 4 /\
  wearable_risk_score PyNone (PyNum 85) PyNone THRESHOLDS = Ok 3 /\
  (forall r : row,
     rule_score (set_altitude 3200 (set_spo2 (PyNum 85) r)) =
       (s <- rule_score (set_altitude 3200 (set_spo2 PyNaN r)) ;; Ok (s + 7))) /\
  (Qle_bool 2500 3200 && Qltb 85 94 = true) /\
  (forall alt q d, altitude_spo2_score alt (PyNum q) = Ok d ->
     d = 0 \/ d = 2 \/ d = 3 \/ d = 4) /\
  (forall alt q, (3000 <= alt)%Q -> (q < 92)%Q ->
     altitude_spo2_score alt (PyNum q) = Ok (if Qltb q 88 then 4 else 3)) /\
  (forall alt q, (2500 <= alt)%Q -> (q < 94)%Q ->
     ~ (3000 <= alt /\ q < 92)%Q ->
     altitude_spo2_score alt (PyNum q) = Ok 2).
Proof.
  split; [reflexivity | ]. split; [reflexivity | ].
  split.
  { intros r. rewrite !rule_score_parts.
    cbn [set_altitude set_spo2 hr_bpm spo2_pct skin_temp
         bloodpressure_systolic bp_diastolic altitude steps
         past_incident_flag weather_condition sum_of].
    change (wearable_risk_score PyNone (PyNum 85) PyNone THRESHOLDS)
      with (@Ok Z 3).
    change (wearable_risk_score PyNone PyNaN PyNone THRESHOLDS)
      with (@Ok Z 0).
    change (altitude_spo2_score 3200 (PyNum 85)) with (@Ok Z 4).
    change (altitude_spo2_score 3200 PyNaN) with (@Ok Z 0).
    destruct (wearable_risk_score (hr_bpm r) _ _ _) as [a | ]; [ | reflexivity].
    destruct (wearable_risk_score _ _ (skin_temp r) _) as [c | ];
      [ | reflexivity].
    destruct (bp_sys_score _) as [d1 | ]; [ | reflexivity].
    destruct (bp_dia_score _) as [d2 | ]; [ | reflexivity].
    destruct (weather_score _ _ _) as [d4 | ]; [ | reflexivity].
    cbn [bind]. f_equal. lia. }
  split; [reflexivity | ].
  split; [ | split].
  - intros alt q d. rewrite altitude_spo2_score_cases.
    intros H; inversion H; clear H.
    repeat match goal with |- context [if ?b then _ else _] => destruct b end;
      lia.
  - intros alt q Ha Hq. rewrite altitude_spo2_score_cases.
    apply Qle_bool_iff in Ha. apply Qltb_true in Hq. rewrite Ha, Hq.
    reflexivity.
  - intros alt q Ha Hq Hn. rewrite altitude_spo2_score_cases.
    destruct (Qle_bool 3000 alt) eqn:E1; destruct (Qltb q 92) eqn:E2; cbn;
      try (apply Qle_bool_iff in E1; apply Qltb_true in E2; tauto);
      apply Qle_bool_iff in Ha; apply Qltb_true in Hq; rewrite Ha, Hq;
      reflexivity.
Qed.

Lemma C5_altitude_oxygen_stacking_witness :
  altitude_spo2_score 3200 (PyNum 85) = Ok (if Qltb 85 88 then 4 else 3).
Proof.
  destruct C5_altitude_oxygen_stacking as (_ & _ & _ & _ & _ & H & _).
  apply H; [vm_compute; discriminate | vm_compute; reflexivity].
Defined.

(** ** End to end *)

(** C6: the record hr_bpm=150, spo2_pct=90, skin_temp=36, bp_systolic=100,
    bp_diastolic=70, altitude=1000, steps=5000, past_incident_flag=false,
    weather Clear totals exactly 5, 3 from the heart rate and 2 from the
    oxygen saturation with every other signal at 0, and is labelled
    MODERATE. *)
Theorem C6_end_to_end_scenario :
  rule_score scenario_row = Ok 5 /\
  rule_label_row scenario_row = Ok "MODERATE"%string /\
  wearable_risk_score (hr_bpm scenario_row) PyNone PyNone THRESHOLDS = Ok 3 /\
  wearable_risk_score PyNone (spo2_pct scenario_row) PyNone THRESHOLDS = Ok 2 /\
  wearable_risk_score PyNone PyNone (skin_temp scenario_row) THRESHOLDS = Ok 0 /\
  wearable_risk_score (hr_bpm scenario_row) (spo2_pct scenario_row)
                      (skin_temp scenario_row) THRESHOLDS = Ok 5 /\
  bp_sys_score (bloodpressure_systolic scenario_row) = Ok 0 /\
  bp_dia_score (bp_diastolic scenario_row) = Ok 0 /\
  altitude_spo2_score (altitude scenario_row) (spo2_pct scenario_row) = Ok 0 /\
  steps_score (steps scenario_row) = 0 /\
  past_incident_score (past_incident_flag scenario_row) = 0 /\
  weather_score (weather_condition scenario_row) (skin_temp scenario_row)
                (hr_bpm scenario_row) = Ok 0.
Proof. repeat split; reflexivity. Qed.

(** ** Skin temperature *)

(** C7: a present skin temperature adds to the vitals sub-score 3 from 38.5
    up, 2 from 37.8 up to 38.5, 2 up to 35.0, 1 above 35.0 up to 35.5
    included, and 0 between 35.5 and 37.8; whatever the other two vitals
    are, this is added to their part of the sub-score. *)
Theorem C7_skin_temp_tiers (q : Q) :
  let pts := wearable_risk_score PyNone PyNone (PyNum q) THRESHOLDS in
  ((38.5 <= q)%Q -> pts = Ok 3) /\
  ((37.8 <= q < 38.5)%Q -> pts = Ok 2) /\
  ((q <= 35.0)%Q -> pts = Ok 2) /\
  ((35.0 < q <= 35.5)%Q -> pts = Ok 1) /\
  ((35.5 < q < 37.8)%Q -> pts = Ok 0) /\
  pts = Ok (if Qle_bool 38.5 q then 3
            else if Qle_bool 37.8 q then 2
            else if Qle_bool q 35.0 then 2
            else if Qle_bool q 35.5 then 1
            else 0) /\
  (forall hr sp,
     wearable_risk_score hr sp (PyNum q) THRESHOLDS =
       (a <- wearable_risk_score hr sp PyNone THRESHOLDS ;;
        b <- pts ;; Ok (a + b))).
Proof.
  cbv zeta.
  assert (Hpts : wearable_risk_score PyNone PyNone (PyNum q) THRESHOLDS =
                 Ok (skin_temp_tier (cfg_skin_temp THRESHOLDS) q))
    by apply wearable_risk_score_one_vital.
  assert (Hadd : forall hr sp,
            wearable_risk_score hr sp (PyNum q) THRESHOLDS =
              (a <- wearable_risk_score hr sp PyNone THRESHOLDS ;;
               b <- wearable_risk_score PyNone PyNone (PyNum q) THRESHOLDS ;;
               Ok (a + b))).
  { intros hr sp.
    rewrite (wearable_risk_score_additive _ hr sp (PyNum q)).
    rewrite (wearable_risk_score_additive _ hr sp PyNone).
    change (wearable_risk_score PyNone PyNone PyNone THRESHOLDS)
      with (@Ok Z 0).
    rewrite Hpts.
    destruct (wearable_risk_score hr _ _ _) as [a | ]; [ | reflexivity].
    destruct (wearable_risk_score _ sp _ _) as [b | ]; [ | reflexivity].
    cbn. f_equal. lia. }
  repeat split; try exact Hadd;
    intros; rewrite Hpts; unfold skin_temp_tier; cbn;
    try match goal with H : (_ /\ _) |- _ => destruct H end;
    q_split; q_done.
Qed.

Lemma C7_skin_temp_tiers_witness :
  wearable_risk_score PyNone PyNone (PyNum 35.5) THRESHOLDS = Ok 1.
Proof.
  destruct (C7_skin_temp_tiers 35.5) as (_ & _ & _ & H & _).
  apply H. split; [vm_compute; reflexivity | vm_compute; discriminate].
Defined.

(** ** Diastolic pressure *)

(** C8: a present diastolic pressure contributes 2 from 110 up, 2 from 100
    up to 110, 1 from 90 up to 100, 2 up to 45, 2 above 45 up to 50, 1 above
    50 up to 60, and 0 between 60 and 90; one branch at most is taken, so
    the contribution never exceeds 2 (115 meets three of the conditions and
    scores 2). *)
Theorem C8_diastolic_tiers (q : Q) :
  ((110 <= q)%Q -> bp_dia_score (PyNum q) = Ok 2) /\
  ((100 <= q < 110)%Q -> bp_dia_score (PyNum q) = Ok 2) /\
  ((90 <= q < 100)%Q -> bp_dia_score (PyNum q) = Ok 1) /\
  ((q <= 45)%Q -> bp_dia_score (PyNum q) = Ok 2) /\
  ((45 < q <= 50)%Q -> bp_dia_score (PyNum q) = Ok 2) /\
  ((50 < q <= 60)%Q -> bp_dia_score (PyNum q) = Ok 1) /\
  ((60 < q < 90)%Q -> bp_dia_score (PyNum q) = Ok 0) /\
  (exists d, bp_dia_score (PyNum q) = Ok d /\ 0 <= d <= 2) /\
  bp_dia_score (PyNum 115) = Ok 2.
Proof.
  repeat split; try (destruct H); unfold bp_dia_score, ifM; cbn;
    try solve [q_split; q_done].
  q_split; cbn; eexists; (split; [reflexivity | lia]).
Qed.

Lemma C8_diastolic_tiers_witness : bp_dia_score (PyNum 105) = Ok 2.
Proof.
  destruct (C8_diastolic_tiers 105) as (_ & H & _).
  apply H. split; [vm_compute; discriminate | vm_compute; reflexivity].
Defined.

(** ** Range of the total *)

Lemma map_total_to_label_in_band (total : Z) :
  0 <= total <= 99 ->
  exists lo hi,
    In (lo, hi, map_total_to_label total LABEL_BANDS) LABEL_BANDS /\
    lo <= total <= hi.
Proof.
  intros Ht. cbn.
  destruct (Z.leb_spec 0 total); [ | lia].
  destruct (Z.leb_spec total 2); cbn.
  { exists 0, 2. split; [auto | lia]. }
  destruct (Z.leb_spec 3 total); [ | lia].
  destruct (Z.leb_spec total 6); cbn.
  { exists 3, 6. split; [auto | lia]. }
  destruct (Z.leb_spec 7 total); [ | lia].
  destruct (Z.leb_spec total 11); cbn.
  { exists 7, 11. split; [auto 6 | lia]. }
  destruct (Z.leb_spec 12 total); [ | lia].
  destruct (Z.leb_spec total 99); cbn; [ | lia].
  exists 12, 99. split; [auto 6 | lia].
Qed.

(** Both ends of the range are reached. *)
Example rule_score_extremes :
  rule_score calm_row = Ok 0 /\ rule_label_row calm_row = Ok "LOW"%string /\
  rule_score worst_row = Ok 24 /\
  rule_label_row worst_row = Ok "CRITICAL"%string.
Proof. repeat split; reflexivity. Qed.

(** C9 (as stated, refuted): a record with weather in the enum, steps not
    negative and one vital absent, the diastolic pressure given as [None],
    gets no total at all: [rule_label_row] raises. *)
Lemma C9_absent_vital_has_no_total :
  In (weather_condition no_diastolic_row) WEATHERS /\
  0 <= steps no_diastolic_row /\
  bp_diastolic no_diastolic_row = PyNone /\
  rule_label_row no_diastolic_row = TypeError /\
  (forall s, rule_score no_diastolic_row <> Ok s).
Proof.
  split; [cbn; tauto | ]. split; [cbn; lia | ].
  split; [reflexivity | ]. split; [reflexivity | ].
  intros s. discriminate.
Qed.

(** C9 (amended): every total [rule_label_row] computes, for any record
    whatever, is between 0 and 24, lies in one of the configured bands, and
    the label returned is that band's, so the fallback of
    [map_total_to_label] is not reached from [rule_label_row]; and for
    every well-formed record (weather in the enum, steps not negative, each
    vital NaN or a number [np.isnan] takes) a total is computed. *)
Theorem C9_total_between_0_and_24 (r : row) :
  (forall s, rule_score r = Ok s ->
     0 <= s <= 24 /\
     exists lo hi lab,
       In (lo, hi, lab) LABEL_BANDS /\ lo <= s <= hi /\
       map_total_to_label s LABEL_BANDS = lab /\
       rule_label_row r = Ok lab) /\
  (well_formed r ->
     exists s,
       rule_score r = Ok s /\ 0 <= s <= 24 /\
       exists lo hi lab,
         In (lo, hi, lab) LABEL_BANDS /\ lo <= s <= hi /\
         map_total_to_label s LABEL_BANDS = lab /\
         rule_label_row r = Ok lab).
Proof.
  assert (Hany : forall s, rule_score r = Ok s ->
     0 <= s <= 24 /\
     exists lo hi lab,
       In (lo, hi, lab) LABEL_BANDS /\ lo <= s <= hi /\
       map_total_to_label s LABEL_BANDS = lab /\
       rule_label_row r = Ok lab).
  { intros s Hs. pose proof (rule_score_range r s Hs) as Hrange.
    split; [exact Hrange | ].
    destruct (map_total_to_label_in_band s) as (lo & hi & Hin & Hlohi);
      [lia | ].
    exists lo, hi, (map_total_to_label s LABEL_BANDS).
    repeat split; try assumption; try lia.
    unfold rule_label_row. rewrite Hs. reflexivity. }
  split; [exact Hany | ].
  intros (_ & _ & Hacc).
  destruct (rule_score_returns r Hacc) as [s Hs].
  exists s. split; [exact Hs | apply Hany; exact Hs].
Qed.

Lemma C9_total_between_0_and_24_witness :
  exists s,
    rule_score worst_row = Ok s /\ 0 <= s <= 24 /\
    exists lo hi lab,
      In (lo, hi, lab) LABEL_BANDS /\ lo <= s <= hi /\
      map_total_to_label s LABEL_BANDS = lab /\
      rule_label_row worst_row = Ok lab.
Proof.
  apply (C9_total_between_0_and_24 worst_row).
  split; [cbn; tauto | split; [cbn; lia | repeat split]].
Defined.

(** ** Steps *)

(** C10: the activity sub-score of [rule_label_row] is the simpler function
    (2 up to 2000 steps, else 1 from 30000 steps, else 0), and the branch
    [elif steps <= 1000] is never taken: once [steps <= very_low] has
    failed, [steps <= 1000] fails too. *)
Theorem C10_steps_score_simple (n : Z) :
  steps_score n = steps_score_simple n /\
  ((n <=? very_low (cfg_steps THRESHOLDS)) = false -> (n <=? 1000) = false).
Proof.
  unfold steps_score, steps_score_simple. cbn.
  destruct (Z.leb_spec n 2000); destruct (Z.leb_spec n 1000);
    split; intros; try reflexivity; try discriminate; lia.
Qed.

Lemma C10_steps_score_simple_witness :
  steps_score 2500 = steps_score_simple 2500 /\ (2500 <=? 1000) = false.
Proof.
  destruct (C10_steps_score_simple 2500) as [H1 H2].
  split; [exact H1 | apply H2; reflexivity].
Defined.

(** * Further properties of the rule engine *)

(** One row of a tier table: the ladder has been reduced to a number, what
    is left is arithmetic on the cutoffs. *)
Ltac table_row :=
  cbn; repeat split; intros;
  first [reflexivity | discriminate | congruence | lra | (exfalso; lra)].

(** ** Heart rate, oxygen saturation, systolic pressure *)

(** X1: with only the heart rate present, the vitals sub-score is 3 exactly
    above 140 or below 45, 2 exactly in (130, 140] or [45, 50), 1 exactly in
    (110, 130] or [50, 60), and 0 exactly in [60, 110]. *)
Theorem X1_hr_tiers (q : Q) :
  let pts := wearable_risk_score (PyNum q) PyNone PyNone THRESHOLDS in
  (pts = Ok 3 <-> (140 < q \/ q < 45)%Q) /\
  (pts = Ok 2 <-> (130 < q <= 140 \/ 45 <= q < 50)%Q) /\
  (pts = Ok 1 <-> (110 < q <= 130 \/ 50 <= q < 60)%Q) /\
  (pts = Ok 0 <-> (60 <= q <= 110)%Q).
Proof.
  cbv zeta. unfold wearable_risk_score, guarded, hr_tier. cbn.
  q_split; table_row.
Qed.

(** X2: with only the oxygen saturation present, the vitals sub-score is 3
    exactly below 88, 2 exactly in [88, 92), 1 exactly in [92, 95), and 0
    exactly from 95 up. *)
Theorem X2_spo2_tiers (q : Q) :
  let pts := wearable_risk_score PyNone (PyNum q) PyNone THRESHOLDS in
  (pts = Ok 3 <-> (q < 88)%Q) /\
  (pts = Ok 2 <-> (88 <= q < 92)%Q) /\
  (pts = Ok 1 <-> (92 <= q < 95)%Q) /\
  (pts = Ok 0 <-> (95 <= q)%Q).
Proof.
  cbv zeta. unfold wearable_risk_score, guarded, spo2_tier. cbn.
  q_split; table_row.
Qed.

(** X3: for a systolic pressure given as a float or NumPy scalar the
    systolic block contributes 3 exactly from 180 up or up to 70, 2 exactly
    in [160, 180) or (70, 80], 1 exactly in [140, 160) or (80, 90], and 0
    exactly in (90, 140).  A Python int that fits 64 bits is scored like the
    same number; a Python int beyond that raises at [np.isnan], however
    high or low the pressure; a NaN pressure contributes 0 and a [None]
    raises. *)
Theorem X3_systolic_tiers (q : Q) (z : Z) :
  (bp_sys_score (PyNum q) = Ok 3 <-> (180 <= q \/ q <= 70)%Q) /\
  (bp_sys_score (PyNum q) = Ok 2 <-> (160 <= q < 180 \/ 70 < q <= 80)%Q) /\
  (bp_sys_score (PyNum q) = Ok 1 <-> (140 <= q < 160 \/ 80 < q <= 90)%Q) /\
  (bp_sys_score (PyNum q) = Ok 0 <-> (90 < q < 140)%Q) /\
  (in_np_range z = true ->
     bp_sys_score (PyInt z) = bp_sys_score (PyNum (inject_Z z))) /\
  (in_np_range z = false -> bp_sys_score (PyInt z) = TypeError) /\
  bp_sys_score PyNaN = Ok 0 /\
  bp_sys_score PyNone = TypeError.
Proof.
  rewrite bp_sys_score_int.
  split; [ | split; [ | split; [ | split; [ | split; [ | split]]]]];
    try (intros ->; reflexivity);
    unfold bp_sys_score, ifM; cbn; q_split; table_row.
Qed.

Lemma X3_systolic_tiers_witness :
  bp_sys_score (PyInt (2 ^ 64)) = TypeError.
Proof.
  destruct (X3_systolic_tiers 0 (2 ^ 64)) as (_ & _ & _ & _ & _ & H & _).
  apply H. reflexivity.
Defined.

(** ** The vitals sub-score under any configuration *)

(** X4: whatever cutoffs the configuration holds, [wearable_risk_score]
    raises [TypeError] exactly when one of its three arguments is a Python
    int that [np.isnan] refuses (one outside -2^63 .. 2^64 - 1); on all
    other arguments ([None], NaN, floats, smaller ints) it returns a value
    between 0 and 9, and it returns 0 when all three vitals are missing. *)
Theorem X4_wearable_risk_score_any_cfg (cfg : thresholds) (hr sp st : pyval) :
  (wearable_risk_score hr sp st cfg = TypeError <->
     out_of_range hr \/ out_of_range sp \/ out_of_range st) /\
  (~ (out_of_range hr \/ out_of_range sp \/ out_of_range st) ->
     exists s, wearable_risk_score hr sp st cfg = Ok s /\ 0 <= s <= 9) /\
  (present hr = Ok None -> present sp = Ok None -> present st = Ok None ->
   wearable_risk_score hr sp st cfg = Ok 0).
Proof.
  split; [apply wearable_risk_score_raises | split].
  - intros Hn.
    destruct (wearable_risk_score_returns cfg hr sp st) as [s Hs]; try tauto.
    exists s. split; [exact Hs | ].
    apply (wearable_risk_score_range cfg hr sp st). exact Hs.
  - unfold wearable_risk_score, guarded. intros -> -> ->. reflexivity.
Qed.

Lemma X4_wearable_risk_score_any_cfg_witness :
  wearable_risk_score PyNaN PyNone PyNaN THRESHOLDS = Ok 0.
Proof.
  apply (X4_wearable_risk_score_any_cfg THRESHOLDS PyNaN PyNone PyNaN);
    reflexivity.
Defined.

(** ** When [rule_label_row] raises *)

Lemma bp_sys_score_raises (v : pyval) :
  bp_sys_score v = TypeError <-> v = PyNone \/ out_of_range v.
Proof.
  unfold out_of_range. destruct v as [ | | q | z].
  - split; [auto | reflexivity].
  - split; [discriminate | intros [H | (z' & H & _)]; discriminate].
  - unfold bp_sys_score, ifM; cbn. q_split; cbn;
      (split; [discriminate | intros [H | (z' & H & _)]; discriminate]).
  - rewrite bp_sys_score_int. destruct (in_np_range z) eqn:E.
    + unfold bp_sys_score, ifM; cbn. q_split; cbn;
        (split; [discriminate | intros [H | (z' & H & Hz)];
                 [discriminate | inversion H; subst; congruence]]).
    + split; [intros _; right; exists z; auto | reflexivity].
Qed.

Lemma bp_dia_score_raises (v : pyval) :
  bp_dia_score v = TypeError <-> v = PyNone \/ out_of_range v.
Proof.
  unfold out_of_range. destruct v as [ | | q | z].
  - split; [auto | reflexivity].
  - split; [discriminate | intros [H | (z' & H & _)]; discriminate].
  - unfold bp_dia_score, ifM; cbn. q_split; cbn;
      (split; [discriminate | intros [H | (z' & H & _)]; discriminate]).
  - rewrite bp_dia_score_int. destruct (in_np_range z) eqn:E.
    + unfold bp_dia_score, ifM; cbn. q_split; cbn;
        (split; [discriminate | intros [H | (z' & H & Hz)];
                 [discriminate | inversion H; subst; congruence]]).
    + split; [intros _; right; exists z; auto | reflexivity].
Qed.

Lemma altitude_spo2_score_raises (alt : Q) (v : pyval) :
  altitude_spo2_score alt v = TypeError <-> (2500 <= alt)%Q /\ v = PyNone.
Proof.
  destruct v as [ | | q | z]; unfold altitude_spo2_score, ifM, andM; cbn;
    q_split; cbn; split; intros H;
    first [discriminate | reflexivity | tauto
          | destruct H; first [discriminate | lra]
          | split; [lra | reflexivity] ].
Qed.

Lemma py_ge_false (v : pyval) (c : Q) :
  py_ge v c = Ok false <-> not_ge v c.
Proof.
  unfold not_ge. destruct v as [ | | x | z]; cbn.
  - split; [discriminate | intros [H | (x & H & _)]; discriminate].
  - split; [auto | reflexivity].
  - destruct (Qle_bool c x) eqn:E;
      [apply Qle_bool_iff in E | apply Qle_bool_false in E].
    + split; [discriminate | intros [H | (y & H & Hy)]; [discriminate | ]].
      inversion H; subst. lra.
    + split; [intros _; right; exists x; auto | reflexivity].
  - destruct (Qle_bool c (inject_Z z)) eqn:E;
      [apply Qle_bool_iff in E | apply Qle_bool_false in E].
    + split; [discriminate | intros [H | (y & H & Hy)]; [discriminate | ]].
      inversion H; subst. lra.
    + split; [intros _; right; exists (inject_Z z); auto | reflexivity].
Qed.

Lemma weather_score_raises (w : string) (st hr : pyval) :
  weather_score w st hr = TypeError <->
  w = "Hot"%string /\ (st = PyNone \/ (hr = PyNone /\ not_ge st 37.8)).
Proof.
  rewrite <- py_ge_false. unfold weather_score.
  destruct (String.eqb_spec w "Storm") as [-> | _];
    [split; [discriminate | intros [H _]; discriminate] | ].
  destruct (existsb (String.eqb w) ["Rain"; "Snow"; "Fog"]%string) eqn:Ex.
  { split; [discriminate | intros [-> _]; discriminate]. }
  destruct (String.eqb_spec w "Hot") as [-> | Hn];
    [ | split; [discriminate | intros [H _]; contradiction]].
  unfold ifM, orM.
  destruct (py_ge st 37.8) as [[ | ] | ] eqn:Est; cbn.
  - split; [discriminate | ].
    intros [_ [-> | [_ H]]]; discriminate.
  - destruct hr as [ | | y | y]; cbn;
      try (destruct (Qltb _ _); cbn);
      (split; [ first [discriminate | intros _; split; [reflexivity | ];
                       right; split; reflexivity]
              | first [reflexivity
                      | intros [_ [-> | [H _]]]; discriminate ] ]).
  - split; [intros _; split; [reflexivity | left] | reflexivity].
    destruct st; cbn in Est; first [reflexivity | discriminate].
Qed.

(** X5: [rule_label_row] raises [TypeError] exactly in these cases: one of
    the five vitals is a Python int that [np.isnan] refuses; the systolic or
    diastolic pressure is [None]; the spo2_pct is [None] at an altitude of
    2500 or more (below 2500 the interaction never looks at it); or, under
    weather Hot, the skin_temp is [None], or the hr_bpm is [None] while the
    skin_temp comparison is false.  On every other row it returns a
    label. *)
Theorem X5_raises_exactly_on_reached_none (r : row) :
  (rule_label_row r = TypeError <-> raises_on r) /\
  (~ raises_on r -> exists lab, rule_label_row r = Ok lab).
Proof.
  assert (Hiff : rule_label_row r = TypeError <-> raises_on r).
  { unfold rule_label_row, rule_score, raises_on, some_out_of_range,
      reaches_none.
    pose proof (wearable_risk_score_raises THRESHOLDS
                  (hr_bpm r) (spo2_pct r) (skin_temp r)) as H0.
    pose proof (bp_sys_score_raises (bloodpressure_systolic r)) as H1.
    pose proof (bp_dia_score_raises (bp_diastolic r)) as H2.
    pose proof (altitude_spo2_score_raises (altitude r) (spo2_pct r)) as H3.
    pose proof (weather_score_raises (weather_condition r)
                  (skin_temp r) (hr_bpm r)) as H4.
    destruct (wearable_risk_score _ _ _ _) as [d0 | ]; [ | cbn; tauto].
    destruct (bp_sys_score _) as [d1 | ]; [ | cbn; tauto].
    destruct (bp_dia_score _) as [d2 | ]; [ | cbn; tauto].
    destruct (altitude_spo2_score _ _) as [d3 | ]; [ | cbn; tauto].
    destruct (weather_score _ _ _) as [d4 | ]; [ | cbn; tauto].
    cbn. split; [discriminate | ].
    intros H. exfalso.
    assert (F : forall A (x : A), Ok x = TypeError -> False)
      by (intros; discriminate).
    pose proof (F Z d0) as F0. pose proof (F Z d1) as F1.
    pose proof (F Z d2) as F2. pose proof (F Z d3) as F3.
    pose proof (F Z d4) as F4. tauto. }
  split; [exact Hiff | ].
  intros Hn. destruct (rule_label_row r) as [lab | ] eqn:E.
  - exists lab. reflexivity.
  - exfalso. apply Hn, Hiff. reflexivity.
Qed.

Lemma X5_raises_exactly_witness :
  exists lab, rule_label_row low_altitude_no_spo2_row = Ok lab.
Proof.
  apply (X5_raises_exactly_on_reached_none low_altitude_no_spo2_row).
  unfold raises_on, some_out_of_range, reaches_none, out_of_range. cbn.
  intros [[H | [H | [H | [H | H]]]] | [H | [H | [[H _] | [H _]]]]];
    try discriminate;
    try (destruct H as (z & H & _); discriminate).
  vm_compute in H. apply H. reflexivity.
Defined.

(** ** Altitude and oxygen, the whole table *)

(** X6: for a present spo2 reading the interaction contributes 4 exactly
    when altitude >= 3000 and spo2 < 88, 3 exactly when altitude >= 3000 and
    88 <= spo2 < 92, 2 exactly when altitude >= 2500 and spo2 < 94 outside
    those two cases, and 0 exactly when altitude < 2500 or spo2 >= 94.  Below
    2500 the spo2 value is never looked at, so even [None] contributes 0. *)
Theorem X6_altitude_spo2_table (alt q : Q) :
  (altitude_spo2_score alt (PyNum q) = Ok 4
     <-> (3000 <= alt /\ q < 88)%Q) /\
  (altitude_spo2_score alt (PyNum q) = Ok 3
     <-> (3000 <= alt /\ 88 <= q < 92)%Q) /\
  (altitude_spo2_score alt (PyNum q) = Ok 2
     <-> ((2500 <= alt < 3000 /\ q < 94) \/ (3000 <= alt /\ 92 <= q < 94))%Q) /\
  (altitude_spo2_score alt (PyNum q) = Ok 0
     <-> (alt < 2500 \/ 94 <= q)%Q) /\
  (forall v, (alt < 2500)%Q -> altitude_spo2_score alt v = Ok 0).
Proof.
  split; [ | split; [ | split; [ | split]]];
    try (rewrite altitude_spo2_score_cases; q_split; table_row).
  intros v Hlow. unfold altitude_spo2_score, ifM, andM. cbn.
  q_split; first [reflexivity | lra].
Qed.

Lemma X6_altitude_spo2_table_witness :
  altitude_spo2_score 2499 PyNone = Ok 0.
Proof.
  destruct (X6_altitude_spo2_table 2499 90) as (_ & _ & _ & _ & H).
  apply H. vm_compute. reflexivity.
Defined.

(** ** Weather *)

(** X7: Storm adds 2; Rain, Snow and Fog add 1; Clear, Cold and Windy add
    0; none of these looks at the vitals, so none can raise.  Hot adds 1
    exactly when skin_temp >= 37.8 or hr_bpm > 110 (for readings), and a
    skin_temp reading of 37.8 or more settles it without looking at
    hr_bpm. *)
Theorem X7_weather_table (st hr : pyval) (x y : Q) :
  weather_score "Storm" st hr = Ok 2 /\
  weather_score "Rain" st hr = Ok 1 /\
  weather_score "Snow" st hr = Ok 1 /\
  weather_score "Fog" st hr = Ok 1 /\
  weather_score "Clear" st hr = Ok 0 /\
  weather_score "Cold" st hr = Ok 0 /\
  weather_score "Windy" st hr = Ok 0 /\
  (weather_score "Hot" (PyNum x) (PyNum y) = Ok 1
     <-> (37.8 <= x \/ 110 < y)%Q) /\
  (weather_score "Hot" (PyNum x) (PyNum y) = Ok 0
     <-> (x < 37.8 /\ y <= 110)%Q) /\
  ((37.8 <= x)%Q -> weather_score "Hot" (PyNum x) hr = Ok 1).
Proof.
  repeat match goal with
  | |- weather_score _ _ _ = _ /\ _ => split; [reflexivity | ]
  end.
  unfold weather_score, ifM, orM. cbn.
  q_split; table_row.
Qed.

Lemma X7_weather_table_witness :
  weather_score "Hot" (PyNum 38) PyNone = Ok 1.
Proof.
  destruct (X7_weather_table PyNone PyNone 38 0) as (_&_&_&_&_&_&_&_&_& H).
  apply H. vm_compute. discriminate.
Defined.

(** ** Past incident *)

(** X8: the past-incident flag adds exactly 2 when it equals 1 and nothing
    for any other value, whatever the rest of the row is: the total of a row
    is the total of the same row with flag 0, plus 2 if the flag is 1. *)
Theorem X8_past_incident_adds_two (r : row) (flag : Z) :
  rule_score (set_flag flag r) =
    (s <- rule_score (set_flag 0 r) ;; Ok (s + (if flag =? 1 then 2 else 0))).
Proof.
  unfold rule_score. cbn.
  destruct (wearable_risk_score _ _ _ _) as [d0 | ]; [ | reflexivity].
  destruct (bp_sys_score _) as [d1 | ]; [ | reflexivity].
  destruct (bp_dia_score _) as [d2 | ]; [ | reflexivity].
  destruct (altitude_spo2_score _ _) as [d3 | ]; [ | reflexivity].
  destruct (weather_score _ _ _) as [d4 | ]; [ | reflexivity].
  cbn. f_equal. unfold past_incident_score. cbn.
  destruct (flag =? 1); lia.
Qed.

(** ** [map_total_to_label] on any list of bands *)

Lemma holds_dec (total : Z) (b : band) :
  ((fst (fst b) <=? total) && (total <=? snd (fst b)) = true) <-> holds total b.
Proof.
  unfold holds. rewrite andb_true_iff, !Z.leb_le. tauto.
Qed.

(** X9: for any list of bands, [map_total_to_label] returns the label of the
    first band that holds the total, whatever comes after it (later bands
    that hold it too are ignored), and "LOW" when no band holds it, in
    particular on the empty list. *)
Theorem X9_first_band_wins (total : Z) (bands : list band) :
  (exists pre lo hi post,
     bands = pre ++ (lo, hi, map_total_to_label total bands) :: post /\
     (forall b, In b pre -> ~ holds total b) /\
     lo <= total <= hi) \/
  ((forall b, In b bands -> ~ holds total b) /\
   map_total_to_label total bands = "LOW"%string).
Proof.
  induction bands as [ | [[lo hi] lab] rest IH].
  - right. split; [intros b [] | reflexivity].
  - cbn [map_total_to_label].
    destruct ((lo <=? total) && (total <=? hi)) eqn:E.
    + left. exists [], lo, hi, rest. split; [reflexivity | ].
      split; [intros b [] | ].
      apply (holds_dec total (lo, hi, lab)) in E. exact E.
    + assert (Hno : ~ holds total (lo, hi, lab)).
      { intros H. apply holds_dec in H. cbn in H. congruence. }
      destruct IH as [(pre & lo' & hi' & post & Heq & Hpre & Hin) | [Hnone Hlow]].
      * left. exists ((lo, hi, lab) :: pre), lo', hi', post.
        split; [cbn; f_equal; exact Heq | ].
        split; [ | exact Hin].
        intros b [<- | Hb]; [exact Hno | apply Hpre; exact Hb].
      * right. split; [ | exact Hlow].
        intros b [<- | Hb]; [exact Hno | apply Hnone; exact Hb].
Qed.

Lemma label_bands_cases (total : Z) (b : band) :
  In b LABEL_BANDS -> holds total b ->
  map_total_to_label total LABEL_BANDS = snd b.
Proof.
  unfold holds. cbn.
  intros [<- | [<- | [<- | [<- | []]]]]; cbn; intros [Hlo Hhi];
    repeat match goal with
    | |- context [?a <=? ?b] => destruct (Z.leb_spec a b); try lia; cbn
    end; reflexivity.
Qed.

Lemma label_bands_none (total : Z) :
  (forall b, In b LABEL_BANDS -> ~ holds total b) ->
  map_total_to_label total LABEL_BANDS = "LOW"%string.
Proof.
  intros Hnone.
  pose proof (Hnone (0, 2, "LOW"%string) ltac:(cbn; tauto)) as H1.
  pose proof (Hnone (3, 6, "MODERATE"%string) ltac:(cbn; tauto)) as H2.
  pose proof (Hnone (7, 11, "HIGH"%string) ltac:(cbn; tauto)) as H3.
  pose proof (Hnone (12, 99, "CRITICAL"%string) ltac:(cbn; tauto)) as H4.
  unfold holds in *. cbn in *.
  repeat match goal with
  | |- context [?a <=? ?b] => destruct (Z.leb_spec a b); try lia; cbn
  end; reflexivity.
Qed.

Lemma map_total_to_label_some_band (total : Z) (bands : list band) :
  (exists b, In b bands /\ holds total b /\
             map_total_to_label total bands = snd b) \/
  ((forall b, In b bands -> ~ holds total b) /\
   map_total_to_label total bands = "LOW"%string).
Proof.
  induction bands as [ | [[lo hi] lab] rest IH]; cbn [map_total_to_label].
  - right. split; [intros b [] | reflexivity].
  - destruct ((lo <=? total) && (total <=? hi)) eqn:E.
    + left. exists (lo, hi, lab). split; [left; reflexivity | ].
      split; [apply holds_dec; exact E | reflexivity].
    + destruct IH as [(b & Hin & Hb & Heq) | [Hnone Hlow]].
      * left. exists b. split; [right; exact Hin | split; assumption].
      * right. split; [ | exact Hlow].
        intros b [<- | Hb]; [ | apply Hnone; exact Hb].
        intros H. apply holds_dec in H. cbn in H. congruence.
Qed.

(** X10: the configured bands do not overlap, so the order in which they
    are listed does not matter: on any reordering of the configured list
    [map_total_to_label] returns the same label for every total. *)
Theorem X10_band_order_irrelevant (bands : list band) (total : Z)
    (Hperm : Permutation LABEL_BANDS bands) :
  map_total_to_label total bands = map_total_to_label total LABEL_BANDS.
Proof.
  destruct (map_total_to_label_some_band total bands)
    as [(b & Hin & Hb & Heq) | [Hnone Hlow]].
  - rewrite Heq. symmetry. apply label_bands_cases; [ | exact Hb].
    apply Permutation_sym in Hperm.
    apply (Permutation_in _ Hperm). exact Hin.
  - rewrite Hlow. symmetry. apply label_bands_none.
    intros b Hb. apply Hnone. apply (Permutation_in _ Hperm). exact Hb.
Qed.

Lemma X10_band_order_irrelevant_witness :
  map_total_to_label 8 (rev LABEL_BANDS) = map_total_to_label 8 LABEL_BANDS.
Proof.
  apply (X10_band_order_irrelevant (rev LABEL_BANDS) 8).
  apply Permutation_rev.
Defined.

(** ** Labels of the totals the engine computes *)

(** X11: on the totals [rule_label_row] computes, the label is LOW exactly
    for a total up to 2, MODERATE exactly for 3..6, HIGH exactly for 7..11
    and CRITICAL exactly for 12 or more: the upper end 99 of the last band
    is never in the way. *)
Theorem X11_label_of_engine_total (r : row) (s : Z)
    (Hs : rule_score r = Ok s) :
  (rule_label_row r = Ok "LOW"%string <-> s <= 2) /\
  (rule_label_row r = Ok "MODERATE"%string <-> 3 <= s <= 6) /\
  (rule_label_row r = Ok "HIGH"%string <-> 7 <= s <= 11) /\
  (rule_label_row r = Ok "CRITICAL"%string <-> 12 <= s).
Proof.
  pose proof (rule_score_range r s Hs) as Hrange.
  unfold rule_label_row. rewrite Hs. cbn.
  repeat match goal with
  | |- context [?a <=? ?b] => destruct (Z.leb_spec a b); try lia; cbn
  end;
  repeat split; intros; first [reflexivity | discriminate | lia].
Qed.

Lemma X11_label_of_engine_total_witness :
  rule_label_row worst_row = Ok "CRITICAL"%string <-> 12 <= 24.
Proof.
  apply (X11_label_of_engine_total worst_row 24). reflexivity.
Defined.

(** ** When the total is zero *)

Lemma hr_tier_zero (q : Q) :
  hr_tier (cfg_hr THRESHOLDS) q = 0 <-> (60 <= q <= 110)%Q.
Proof. unfold hr_tier. cbn. q_split; table_row. Qed.

Lemma spo2_tier_zero (q : Q) :
  spo2_tier (cfg_spo2 THRESHOLDS) q = 0 <-> (95 <= q)%Q.
Proof. unfold spo2_tier. cbn. q_split; table_row. Qed.

Lemma skin_temp_tier_zero (q : Q) :
  skin_temp_tier (cfg_skin_temp THRESHOLDS) q = 0 <-> (35.5 < q < 37.8)%Q.
Proof. unfold skin_temp_tier. cbn. q_split; table_row. Qed.

Lemma bp_sys_score_zero (q : Q) :
  bp_sys_score (PyNum q) = Ok 0 <-> (90 < q < 140)%Q.
Proof. unfold bp_sys_score, ifM. cbn. q_split; table_row. Qed.

Lemma bp_dia_score_zero (q : Q) :
  bp_dia_score (PyNum q) = Ok 0 <-> (60 < q < 90)%Q.
Proof. unfold bp_dia_score, ifM. cbn. q_split; table_row. Qed.

Lemma altitude_spo2_score_zero (alt q : Q) :
  (95 <= q)%Q -> altitude_spo2_score alt (PyNum q) = Ok 0.
Proof.
  intros Hq. rewrite altitude_spo2_score_cases. q_split; table_row.
Qed.

Lemma steps_score_zero (n : Z) : steps_score n = 0 <-> 2000 < n < 30000.
Proof.
  unfold steps_score. cbn.
  repeat match goal with
  | |- context [?a <=? ?b] => destruct (Z.leb_spec a b); try lia; cbn
  end; split; intros; first [discriminate | lia].
Qed.

Lemma past_incident_score_zero (flag : Z) :
  past_incident_score flag = 0 <-> flag <> 1.
Proof.
  unfold past_incident_score.
  destruct (Z.eqb_spec flag 1); split; intros; first [discriminate | lia].
Qed.

Lemma weather_score_zero (w : string) (x y : Q) :
  weather_score w (PyNum x) (PyNum y) = Ok 0 <->
  ~ In w ["Storm"; "Rain"; "Snow"; "Fog"]%string /\
  (w = "Hot"%string -> (x < 37.8 /\ y <= 110)%Q).
Proof.
  unfold weather_score. cbn.
  destruct (String.eqb_spec w "Storm") as [-> | N1];
    [split; [discriminate | tauto] | ].
  destruct (String.eqb_spec w "Rain") as [-> | N2];
    [split; [discriminate | tauto] | ].
  destruct (String.eqb_spec w "Snow") as [-> | N3];
    [split; [discriminate | tauto] | ].
  destruct (String.eqb_spec w "Fog") as [-> | N4];
    [split; [discriminate | tauto] | ].
  cbn.
  destruct (String.eqb_spec w "Hot") as [-> | N5].
  - unfold ifM, orM. cbn. q_split; cbn; split;
      first [ discriminate
            | intros _; reflexivity
            | intros [_ H]; specialize (H eq_refl); lra
            | intros _; split; [intros H; repeat destruct H as [H | H];
                                 first [discriminate | contradiction]
                               | intros _; lra] ].
  - split; [ | reflexivity].
    intros _. split; [ | intros H; contradiction].
    intros [H | [H | [H | [H | []]]]]; congruence.
Qed.

(** X12: for a row whose five vitals are readings, the total is 0 exactly
    when every signal is in its normal range: heart rate in [60, 110],
    spo2 from 95 up, skin temperature strictly between 35.5 and 37.8,
    systolic strictly between 90 and 140, diastolic strictly between 60 and
    90, steps strictly between 2000 and 30000, flag other than 1, and weather
    none of Storm, Rain, Snow, Fog.  Altitude plays no part. *)
Theorem X12_total_zero_iff_all_normal (r : row) (hr sp st sys dia : Q)
    (Hr : has_readings r hr sp st sys dia) :
  rule_score r = Ok 0 <-> all_normal r hr sp st sys dia.
Proof.
  destruct Hr as (Hhr & Hsp & Hst & Hsys & Hdia).
  unfold rule_score, all_normal. rewrite Hhr, Hsp, Hst, Hsys, Hdia.
  pose proof (bp_sys_score_zero sys) as Zsys.
  pose proof (bp_dia_score_zero dia) as Zdia.
  pose proof (altitude_spo2_score_zero (altitude r) sp) as Zalt.
  pose proof (weather_score_zero (weather_condition r) st hr) as Zw.
  pose proof (hr_tier_zero hr) as Zhr.
  pose proof (spo2_tier_zero sp) as Zsp.
  pose proof (skin_temp_tier_zero st) as Zst.
  pose proof (steps_score_zero (steps r)) as Zsteps.
  pose proof (past_incident_score_zero (past_incident_flag r)) as Zflag.
  pose proof (hr_tier_range THRESHOLDS hr) as Rhr.
  pose proof (spo2_tier_range THRESHOLDS sp) as Rsp.
  pose proof (skin_temp_tier_range THRESHOLDS st) as Rst.
  pose proof (steps_score_range (steps r)) as Rsteps.
  pose proof (past_incident_score_range (past_incident_flag r)) as Rflag.
  destruct (bp_sys_score_returns (PyNum sys)) as [d1 E1]; [exact I | ].
  destruct (bp_dia_score_returns (PyNum dia)) as [d2 E2]; [exact I | ].
  destruct (altitude_spo2_score_returns (altitude r) (PyNum sp)) as [d3 E3];
    [discriminate | ].
  destruct (weather_score_returns (weather_condition r) (PyNum st) (PyNum hr))
    as [d4 E4]; [discriminate | discriminate | ].
  pose proof (bp_sys_score_range _ _ E1) as R1.
  pose proof (bp_dia_score_range _ _ E2) as R2.
  pose proof (altitude_spo2_score_range _ _ _ E3) as R3.
  pose proof (weather_score_range _ _ _ _ E4) as R4.
  rewrite E1, E2, E3, E4 in *. unfold wearable_risk_score, guarded. cbn.
  split.
  - intros H. inversion H as [Hsum]. clear H.
    assert (d1 = 0 /\ d2 = 0 /\ d4 = 0 /\
            hr_tier (cfg_hr THRESHOLDS) hr = 0 /\
            spo2_tier (cfg_spo2 THRESHOLDS) sp = 0 /\
            skin_temp_tier (cfg_skin_temp THRESHOLDS) st = 0 /\
            steps_score (steps r) = 0 /\
            past_incident_score (past_incident_flag r) = 0)
      as (-> & -> & -> & T1 & T2 & T3 & T4 & T5) by (cbn in *; lia).
    apply Zhr in T1. apply Zsp in T2. apply Zst in T3.
    apply Zsteps in T4. apply Zflag in T5.
    pose proof (proj1 Zsys eq_refl) as S1.
    pose proof (proj1 Zdia eq_refl) as S2.
    pose proof (proj1 Zw eq_refl) as [S4 _].
    repeat (split; [assumption | ]). exact S4.
  - intros (Nhr & Nsp & Nst & Nsys & Ndia & Nsteps & Nflag & Nw).
    assert (d4 = 0) as ->.
    { assert (Hz : Ok d4 = Ok 0); [ | inversion Hz; reflexivity].
      apply Zw. split; [exact Nw | intros _; lra]. }
    assert (d3 = 0) as ->.
    { assert (Hz : Ok d3 = Ok 0); [ | inversion Hz; reflexivity].
      apply Zalt. exact Nsp. }
    apply Zhr in Nhr. apply Zsp in Nsp. apply Zst in Nst.
    apply Zsteps in Nsteps. apply Zflag in Nflag.
    apply Zsys in Nsys. apply Zdia in Ndia.
    inversion Nsys. inversion Ndia. f_equal. cbn in *. lia.
Qed.

Lemma X12_total_zero_iff_all_normal_witness :
  rule_score calm_row = Ok 0 <-> all_normal calm_row 72 98 36.5 120 80.
Proof.
  apply (X12_total_zero_iff_all_normal calm_row 72 98 36.5 120 80).
  repeat split; reflexivity.
Defined.

(** ** Monotonicity in oxygen saturation and in altitude *)

Lemma spo2_tier_antitone (q1 q2 : Q) :
  (q1 <= q2)%Q ->
  spo2_tier (cfg_spo2 THRESHOLDS) q2 <= spo2_tier (cfg_spo2 THRESHOLDS) q1.
Proof.
  intros Hq. unfold spo2_tier. cbn. q_split; first [lia | lra].
Qed.

Lemma altitude_spo2_score_antitone (alt q1 q2 : Q) (d1 d2 : Z) :
  (q1 <= q2)%Q ->
  altitude_spo2_score alt (PyNum q1) = Ok d1 ->
  altitude_spo2_score alt (PyNum q2) = Ok d2 ->
  d2 <= d1.
Proof.
  intros Hq. rewrite !altitude_spo2_score_cases.
  intros H1 H2. inversion H1. inversion H2. clear H1 H2.
  q_split; cbn; first [lia | lra].
Qed.

Lemma altitude_spo2_score_monotone (a1 a2 : Q) (v : pyval) (d1 d2 : Z) :
  (a1 <= a2)%Q ->
  altitude_spo2_score a1 v = Ok d1 ->
  altitude_spo2_score a2 v = Ok d2 ->
  d1 <= d2.
Proof.
  intros Ha. destruct v as [ | | q | z].
  - unfold altitude_spo2_score, ifM, andM. cbn.
    q_split; cbn; intros H1 H2;
      first [discriminate | inversion H1; inversion H2; lia | lra].
  - unfold altitude_spo2_score, ifM, andM. cbn.
    q_split; cbn; intros H1 H2; inversion H1; inversion H2; lia.
  - rewrite !altitude_spo2_score_cases.
    intros H1 H2. inversion H1. inversion H2. clear H1 H2.
    q_split; cbn; first [lia | lra].
  - rewrite !altitude_spo2_score_int, !altitude_spo2_score_cases.
    intros H1 H2. inversion H1. inversion H2. clear H1 H2.
    q_split; cbn; first [lia | lra].
Qed.

(** X13: a lower oxygen saturation never gives a lower total: of two rows
    that differ only in their spo2 readings, the one with the lower reading
    totals at least as much (and the two raise together or not at all). *)
Theorem X13_lower_spo2_never_lowers_total (r : row) (q1 q2 : Q)
    (Hq : (q1 <= q2)%Q) :
  both_or_neither (fun s1 s2 => s2 <= s1)
    (rule_score (set_spo2 (PyNum q1) r))
    (rule_score (set_spo2 (PyNum q2) r)).
Proof.
  rewrite !rule_score_parts.
  cbn [set_spo2 hr_bpm spo2_pct skin_temp bloodpressure_systolic
       bp_diastolic altitude steps past_incident_flag weather_condition
       sum_of].
  rewrite !(proj1 (proj2 (wearable_risk_score_one_vital THRESHOLDS _))).
  destruct (altitude_spo2_score_returns (altitude r) (PyNum q1)) as [a1 E1];
    [discriminate | ].
  destruct (altitude_spo2_score_returns (altitude r) (PyNum q2)) as [a2 E2];
    [discriminate | ].
  pose proof (altitude_spo2_score_antitone _ _ _ _ _ Hq E1 E2) as Ha.
  pose proof (spo2_tier_antitone q1 q2 Hq) as Ht.
  rewrite E1, E2.
  destruct (wearable_risk_score (hr_bpm r) _ _ _) as [a | ]; [ | exact I].
  destruct (wearable_risk_score _ _ (skin_temp r) _) as [c | ]; [ | exact I].
  destruct (bp_sys_score _) as [d1 | ]; [ | exact I].
  destruct (bp_dia_score _) as [d2 | ]; [ | exact I].
  destruct (weather_score _ _ _) as [d4 | ]; [ | exact I].
  cbn [bind both_or_neither]. lia.
Qed.

Lemma X13_lower_spo2_witness :
  both_or_neither (fun s1 s2 => s2 <= s1)
    (rule_score (set_spo2 (PyNum 85) worst_row))
    (rule_score (set_spo2 (PyNum 93) worst_row)).
Proof.
  apply (X13_lower_spo2_never_lowers_total worst_row 85 93).
  vm_compute. discriminate.
Defined.

(** X14: a higher altitude never gives a lower total: of two rows that
    differ only in altitude, with an spo2_pct that is a reading or NaN, the
    higher one totals at least as much (and the two raise together or not
    at all). *)
Theorem X14_higher_altitude_never_lowers_total (r : row) (a1 a2 : Q)
    (Hsp : spo2_pct r <> PyNone) (Ha : (a1 <= a2)%Q) :
  both_or_neither Z.le
    (rule_score (set_altitude a1 r))
    (rule_score (set_altitude a2 r)).
Proof.
  unfold rule_score. cbn.
  destruct (wearable_risk_score _ _ _ _) as [d0 | ]; [ | exact I].
  destruct (bp_sys_score _) as [d1 | ]; [ | exact I].
  destruct (bp_dia_score _) as [d2 | ]; [ | exact I].
  destruct (altitude_spo2_score_returns a1 (spo2_pct r) Hsp) as [x1 E1].
  destruct (altitude_spo2_score_returns a2 (spo2_pct r) Hsp) as [x2 E2].
  pose proof (altitude_spo2_score_monotone _ _ _ _ _ Ha E1 E2) as Hx.
  rewrite E1, E2.
  destruct (weather_score _ _ _) as [d4 | ]; [ | exact I].
  cbn. lia.
Qed.

Lemma X14_higher_altitude_witness :
  both_or_neither Z.le
    (rule_score (set_altitude 1000 worst_row))
    (rule_score (set_altitude 2700 worst_row)).
Proof.
  apply (X14_higher_altitude_never_lowers_total worst_row 1000 2700).
  - discriminate.
  - vm_compute. discriminate.
Defined.

(** ** The weather as a whole *)

(** X15: whatever the weather string is, a row that is scored totals at
    least what the same row totals under Clear and at most what it totals
    under Storm, which is the Clear total plus 2; Clear and Storm are
    scored whenever any weather is. *)
Theorem X15_weather_between_clear_and_storm (r : row) (w : string) (s : Z)
    (Hs : rule_score (set_weather w r) = Ok s) :
  exists s0,
    rule_score (set_weather "Clear" r) = Ok s0 /\
    rule_score (set_weather "Storm" r) = Ok (s0 + 2) /\
    s0 <= s <= s0 + 2.
Proof.
  revert Hs. unfold rule_score. cbn.
  destruct (wearable_risk_score _ _ _ _) as [d0 | ]; [ | discriminate].
  destruct (bp_sys_score _) as [d1 | ]; [ | discriminate].
  destruct (bp_dia_score _) as [d2 | ]; [ | discriminate].
  destruct (altitude_spo2_score _ _) as [d3 | ]; [ | discriminate].
  destruct (weather_score w _ _) as [d4 | ] eqn:E4; [ | discriminate].
  apply weather_score_range in E4.
  cbn. intros H. inversion H. subst s. clear H.
  eexists. split; [reflexivity | ]. split; [f_equal; lia | lia].
Qed.

Lemma X15_weather_between_witness :
  exists s0,
    rule_score (set_weather "Clear" scenario_row) = Ok s0 /\
    rule_score (set_weather "Storm" scenario_row) = Ok (s0 + 2) /\
    s0 <= 6 <= s0 + 2.
Proof.
  apply (X15_weather_between_clear_and_storm scenario_row "Fog" 6).
  reflexivity.
Defined.

(** ** Totals outside the bands *)

(** X16: on the configured bands a negative total is held by no band and
    gets the fallback label "LOW"; so for every integer, negative ones and
    those above 99 included, the label is one of the four. *)
Theorem X16_label_of_any_integer (total : Z) :
  (total < 0 ->
     map_total_to_label total LABEL_BANDS = "LOW"%string /\
     forall b, In b LABEL_BANDS -> ~ holds total b) /\
  In (map_total_to_label total LABEL_BANDS)
     ["LOW"; "MODERATE"; "HIGH"; "CRITICAL"]%string.
Proof.
  split.
  - intros Hneg.
    assert (Hnone : forall b, In b LABEL_BANDS -> ~ holds total b).
    { unfold holds. cbn.
      intros b [<- | [<- | [<- | [<- | []]]]]; cbn; lia. }
    split; [apply label_bands_none; exact Hnone | exact Hnone].
  - cbn.
    repeat match goal with
    | |- context [?a <=? ?b] => destruct (Z.leb_spec a b); cbn
    end; tauto.
Qed.

Lemma X16_label_of_any_integer_witness :
  map_total_to_label (-1) LABEL_BANDS = "LOW"%string.
Proof.
  apply (X16_label_of_any_integer (-1)). reflexivity.
Defined.

(** ** A missing vital and a normal one *)

Lemma weather_score_hr_normal (w : string) (st : pyval) (q : Q) :
  (q <= 110)%Q -> weather_score w st (PyNum q) = weather_score w st PyNaN.
Proof.
  intros Hq. unfold weather_score.
  destruct (String.eqb w "Storm"); [reflexivity | ].
  destruct (existsb _ _); [reflexivity | ].
  destruct (String.eqb w "Hot"); [ | reflexivity].
  destruct st as [ | | x | x]; unfold ifM, orM; cbn;
    q_split; first [reflexivity | lra].
Qed.

Lemma weather_score_skin_normal (w : string) (hr : pyval) (q : Q) :
  (q < 37.8)%Q -> weather_score w (PyNum q) hr = weather_score w PyNaN hr.
Proof.
  intros Hq. unfold weather_score.
  destruct (String.eqb w "Storm"); [reflexivity | ].
  destruct (existsb _ _); [reflexivity | ].
  destruct (String.eqb w "Hot"); [ | reflexivity].
  unfold ifM, orM; cbn. q_split; first [reflexivity | lra].
Qed.

(** X17: a vital that is NaN is scored exactly like a reading in the normal
    range of that vital.  Whatever the rest of the row is, the result (total
    or exception) is the same with hr_bpm NaN as with any hr_bpm in
    [60, 110], with spo2_pct NaN as with any spo2_pct from 95 up, with
    skin_temp NaN as with any skin_temp strictly between 35.5 and 37.8, and
    with a NaN pressure as with any systolic strictly between 90 and 140 or
    diastolic strictly between 60 and 90. *)
Theorem X17_nan_scores_as_normal (r : row) (q : Q) :
  let hr := hr_bpm r in let sp := spo2_pct r in let st := skin_temp r in
  let sys := bloodpressure_systolic r in let dia := bp_diastolic r in
  ((60 <= q <= 110)%Q ->
     rule_score (set_vitals (PyNum q) sp st sys dia r) =
     rule_score (set_vitals PyNaN sp st sys dia r)) /\
  ((95 <= q)%Q ->
     rule_score (set_vitals hr (PyNum q) st sys dia r) =
     rule_score (set_vitals hr PyNaN st sys dia r)) /\
  ((35.5 < q < 37.8)%Q ->
     rule_score (set_vitals hr sp (PyNum q) sys dia r) =
     rule_score (set_vitals hr sp PyNaN sys dia r)) /\
  ((90 < q < 140)%Q ->
     rule_score (set_vitals hr sp st (PyNum q) dia r) =
     rule_score (set_vitals hr sp st PyNaN dia r)) /\
  ((60 < q < 90)%Q ->
     rule_score (set_vitals hr sp st sys (PyNum q) r) =
     rule_score (set_vitals hr sp st sys PyNaN r)).
Proof.
  cbv zeta. unfold rule_score.
  cbn [set_vitals hr_bpm spo2_pct skin_temp bloodpressure_systolic
       bp_diastolic altitude steps past_incident_flag weather_condition].
  split; [ | split; [ | split; [ | split]]]; intros Hq.
  - rewrite (weather_score_hr_normal _ _ q) by lra.
    rewrite (wearable_risk_score_additive _ (PyNum q)).
    rewrite (wearable_risk_score_additive _ PyNaN).
    rewrite (proj1 (wearable_risk_score_one_vital THRESHOLDS q)).
    rewrite (proj2 (hr_tier_zero q) Hq). reflexivity.
  - rewrite (altitude_spo2_score_zero _ q Hq), altitude_spo2_score_nan.
    rewrite (wearable_risk_score_additive _ _ (PyNum q)).
    rewrite (wearable_risk_score_additive _ _ PyNaN).
    rewrite (proj1 (proj2 (wearable_risk_score_one_vital THRESHOLDS q))).
    rewrite (proj2 (spo2_tier_zero q) Hq). reflexivity.
  - rewrite (weather_score_skin_normal _ _ q) by lra.
    rewrite (wearable_risk_score_additive _ _ _ (PyNum q)).
    rewrite (wearable_risk_score_additive _ _ _ PyNaN).
    rewrite (proj2 (proj2 (wearable_risk_score_one_vital THRESHOLDS q))).
    rewrite (proj2 (skin_temp_tier_zero q) Hq). reflexivity.
  - rewrite (proj2 (bp_sys_score_zero q) Hq).
    change (bp_sys_score PyNaN) with (@Ok Z 0). reflexivity.
  - rewrite (proj2 (bp_dia_score_zero q) Hq).
    change (bp_dia_score PyNaN) with (@Ok Z 0). reflexivity.
Qed.

Lemma X17_nan_scores_as_normal_witness :
  rule_score (set_vitals (PyNum 80) PyNaN PyNaN PyNaN PyNaN all_missing_hot_row)
  = rule_score (set_vitals PyNaN PyNaN PyNaN PyNaN PyNaN all_missing_hot_row).
Proof.
  destruct (X17_nan_scores_as_normal all_missing_hot_row 80) as [H _].
  apply H. split; vm_compute; discriminate.
Defined.
